(** * The Bedrock / Kendra / Google Drive pattern, verified

    The repository's program is [app.py]: the constructor of
    [BedrockKendraGoogleDriveStack], an AWS CDK stack, followed by the three
    lines that instantiate it in an [App] and synthesize it.  The constructor
    is stateful code: every construct it creates registers itself as a child
    of the scope [self], and [node.add_dependency] mutates the construct tree.
    It is embedded here as a computation in a small state-and-error monad over
    the stack under construction; the values that are only known at deployment
    (parameter values, the region, attributes of created resources) are kept
    symbolic, as CDK keeps them, and a separate resolution function gives them
    their deployment-time meaning. *)

From Stdlib Require Import String Ascii List ZArith QArith Lia Bool.
From stdpp Require Import gmap strings list.

(** ** The part of the CDK library that [app.py] calls *)

Module Cdk.

(** A string that may embed deploy-time values.  CDK encodes such a value as
    a token inside an ordinary Python string; an f-string over tokens is
    therefore a concatenation of literal pieces and references. *)
Inductive Fragment : Type :=
| FLit (s : string)
| FRef (logical_id : string)
| FGetAtt (logical_id attr : string).

#[global] Instance Fragment_eq_dec : EqDecision Fragment.
Proof. solve_decision. Defined.

Definition TokenStr : Type := list Fragment.

Definition lit (s : string) : TokenStr := [FLit s].

(** [f"...{a}...{b}..."] *)
Definition fstr (parts : list TokenStr) : TokenStr := concat parts.

(** [self.region] *)
Definition region : TokenStr := [FRef "AWS::Region"].

Module Duration.
Record t : Type := Build { to_seconds : Z }.
Definition seconds (n : Z) : t := Build n.
Definition minutes (n : Z) : t := Build (60 * n).
End Duration.

Record CfnParameter : Type := {
  param_id : string;
  param_type : string;
  param_default : option string;
  allowed_values : list string;
  param_description : string
}.

Definition value_as_string (p : CfnParameter) : TokenStr := [FRef (param_id p)].

Record PolicyStatement : Type := {
  actions : list string;
  resources : list TokenStr
}.

Record PolicyDocument : Type := { statements : list PolicyStatement }.

(** [inline_policies] is a Python dict literal; its entries are kept in the
    order they are written, which is the order of the synthesized role. *)
Record Role : Type := {
  role_id : string;
  assumed_by : string;
  role_name : option string;
  managed_policies : list string;
  inline_policies : list (string * PolicyDocument)
}.

Definition role_arn (r : Role) : TokenStr := [FGetAtt (role_id r) "Arn"].

Record CfnIndex : Type := {
  ix_id : string;
  ix_name : string;
  ix_role_arn : TokenStr;
  ix_edition : TokenStr
}.

Definition ix_attr_arn (i : CfnIndex) : TokenStr := [FGetAtt (ix_id i) "Arn"].
Definition ix_attr_id (i : CfnIndex) : TokenStr := [FGetAtt (ix_id i) "Id"].

Record GoogleDriveConfigurationProperty : Type := { secret_arn : TokenStr }.

Record DataSourceConfigurationProperty : Type := {
  google_drive_configuration : option GoogleDriveConfigurationProperty
}.

Record CfnDataSource : Type := {
  ds_id : string;
  index_id : TokenStr;
  ds_name : string;
  ds_type : string;
  data_source_configuration : DataSourceConfigurationProperty;
  ds_role_arn : TokenStr
}.

Definition ds_attr_arn (d : CfnDataSource) : TokenStr := [FGetAtt (ds_id d) "Arn"].
Definition ds_attr_id (d : CfnDataSource) : TokenStr := [FGetAtt (ds_id d) "Id"].

Inductive Runtime : Type := PYTHON_3_12.

Inductive Tracing : Type := ACTIVE | PASS_THROUGH | DISABLED.

(** [environment] is a dict that the function's process later reads by key
    ([os.environ]); it is a finite map from variable names to values. *)
Record Function : Type := {
  fn_id : string;
  runtime : Runtime;
  code : string;
  handler : string;
  timeout : Duration.t;
  memory_size : Z;
  role : Role;
  tracing : option Tracing;
  environment : gmap string TokenStr
}.

Definition function_arn (f : Function) : TokenStr := [FGetAtt (fn_id f) "Arn"].

Inductive InvocationType : Type := EVENT | REQUEST_RESPONSE | DRY_RUN.

Record Trigger : Type := {
  tr_id : string;
  tr_handler : Function;
  tr_timeout : Duration.t;
  invocation_type : InvocationType
}.

Record CfnOutput : Type := {
  out_id : string;
  out_value : TokenStr;
  out_description : string
}.

Inductive Construct : Type :=
| CParameter (p : CfnParameter)
| CRole (r : Role)
| CIndex (i : CfnIndex)
| CDataSource (d : CfnDataSource)
| CFunction (f : Function)
| CTrigger (t : Trigger)
| COutput (o : CfnOutput).

Definition construct_id_of (c : Construct) : string :=
  match c with
  | CParameter p => param_id p
  | CRole r => role_id r
  | CIndex i => ix_id i
  | CDataSource d => ds_id d
  | CFunction f => fn_id f
  | CTrigger t => tr_id t
  | COutput o => out_id o
  end.

(** The scope [self]: the children registered so far, in creation order, the
    dependency edges added through [node.add_dependency], as pairs
    (dependent, dependency), and the statements that constructs have added to
    the default policy of a role after the role was created, as pairs
    (role id, statement). *)
Record Stack : Type := {
  stack_id : string;
  children : list Construct;
  node_dependencies : list (string * string);
  attached_policies : list (string * PolicyStatement)
}.

Definition empty_stack (construct_id : string) : Stack :=
  {| stack_id := construct_id; children := []; node_dependencies := [];
     attached_policies := [] |}.

(** Construction is a state transformer on the scope that may raise. *)
Definition Build (A : Type) : Type := Stack -> option (A * Stack).

Definition ret {A} (a : A) : Build A := fun s => Some (a, s).

Definition bind {A B} (m : Build A) (k : A -> Build B) : Build B :=
  fun s => match m s with
           | Some (a, s') => k a s'
           | None => None
           end.

Definition has_child (s : Stack) (id : string) : bool :=
  existsb (fun c => bool_decide (construct_id_of c = id)) (children s).

(** Every construct constructor ends by attaching the new construct to its
    scope; CDK raises when the scope already has a child of that name. *)
Definition add_child (c : Construct) : Build unit :=
  fun s =>
    if has_child s (construct_id_of c) then None
    else Some (tt, {| stack_id := stack_id s;
                      children := children s ++ [c];
                      node_dependencies := node_dependencies s;
                      attached_policies := attached_policies s |}).

(** [dependent.node.add_dependency(dependency)] *)
Definition add_dependency (dependent dependency : string) : Build unit :=
  fun s => Some (tt, {| stack_id := stack_id s;
                        children := children s;
                        node_dependencies :=
                          node_dependencies s ++ [(dependent, dependency)];
                        attached_policies := attached_policies s |}).

(** [role.add_to_principal_policy(statement)]: the statement goes to the
    role's default policy, a policy attached to the role beside its inline
    ones. *)
Definition add_to_role_policy (r : Role) (st : PolicyStatement) : Build unit :=
  fun s => Some (tt, {| stack_id := stack_id s;
                        children := children s;
                        node_dependencies := node_dependencies s;
                        attached_policies :=
                          attached_policies s ++ [(role_id r, st)] |}).

(** The statement a function with [tracing] other than DISABLED adds to its
    role, so that it may send trace data to X-Ray. *)
Definition xray_statement : PolicyStatement := {|
  actions := ["xray:PutTraceSegments"; "xray:PutTelemetryRecords"];
  resources := [lit "*"] |}.

Definition new_parameter (p : CfnParameter) : Build CfnParameter :=
  bind (add_child (CParameter p)) (fun _ => ret p).
Definition new_role (r : Role) : Build Role :=
  bind (add_child (CRole r)) (fun _ => ret r).
Definition new_index (i : CfnIndex) : Build CfnIndex :=
  bind (add_child (CIndex i)) (fun _ => ret i).
Definition new_data_source (d : CfnDataSource) : Build CfnDataSource :=
  bind (add_child (CDataSource d)) (fun _ => ret d).
Definition new_function (f : Function) : Build Function :=
  bind (add_child (CFunction f)) (fun _ =>
  bind (match tracing f with
        | Some ACTIVE | Some PASS_THROUGH =>
            add_to_role_policy (role f) xray_statement
        | Some DISABLED | None => ret tt
        end) (fun _ => ret f)).
(** A trigger also brings its own custom-resource provider (a function and a
    role of the CDK library, not of [app.py]) into the stack; only the trigger
    itself is registered here. *)
Definition new_trigger (t : Trigger) : Build Trigger :=
  bind (add_child (CTrigger t)) (fun _ => ret t).
Definition new_output (o : CfnOutput) : Build CfnOutput :=
  bind (add_child (COutput o)) (fun _ => ret o).

(** [super().__init__(scope, construct_id)] followed by the body.  What CDK
    checks on the id itself (the syntax of a stack name, the length of the
    role names derived from it) is left out: the stacks below are those of
    the ids CDK accepts. *)
Definition construct (construct_id : string) (body : Build unit) : option Stack :=
  match body (empty_stack construct_id) with
  | Some (_, s) => Some s
  | None => None
  end.

End Cdk.

Import Cdk.

Declare Scope build_scope.
Delimit Scope build_scope with build.
Notation "m ;; k" := (bind m (fun _ => k))
  (at level 100, right associativity) : build_scope.

(** ** [app.py]

    The local variables of [BedrockKendraGoogleDriveStack.__init__] are the
    definitions of the section below, under their own names; [__init__]
    itself registers them on the scope in statement order. *)

Section BedrockKendraGoogleDriveStack.

Variable construct_id : string.

(* Define parameters *)
Definition model_id_param : CfnParameter := {|
  param_id := "ModelId";
  param_type := "String";
  param_default := Some "anthropic.claude-instant-v1";
  allowed_values := [
    "anthropic.claude-instant-v1";
    "anthropic.claude-3-sonnet-20240229-v1:0";
    "anthropic.claude-3-haiku-20240307-v1:0";
    "anthropic.claude-v2"
  ];
  param_description := "Enter the Model Id of the Anthropic LLM" |}.

Definition kendra_edition_param : CfnParameter := {|
  param_id := "KendraEdition";
  param_type := "String";
  param_default := Some "DEVELOPER_EDITION";
  allowed_values := [
    "DEVELOPER_EDITION";
    "ENTERPRISE_EDITION"
  ];
  param_description := "Kendra edition (DEVELOPER_EDITION, ENTERPRISE_EDITION)" |}.

Definition google_drive_secret_arn_param : CfnParameter := {|
  param_id := "GoogleDriveSecretArn";
  param_type := "String";
  param_default := None;
  allowed_values := [];
  param_description :=
    "Enter the ARN of the secret containing Google Drive credentials" |}.

(* Use the parameter values in your stack *)
Definition model_id : TokenStr := value_as_string model_id_param.
Definition kendra_edition : TokenStr := value_as_string kendra_edition_param.
Definition google_drive_secret_arn : TokenStr :=
  value_as_string google_drive_secret_arn_param.

(* Create Kendra index role *)
Definition kendra_index_role : Role := {|
  role_id := "KendraIndexRole";
  assumed_by := "kendra.amazonaws.com";
  role_name := Some (construct_id +:+ "-KendraIndexRole");
  managed_policies := ["CloudWatchLogsFullAccess"];
  inline_policies := [] |}.

(* Create Kendra index *)
Definition kendra_index : CfnIndex := {|
  ix_id := "KendraIndex";
  ix_name := construct_id +:+ "-KendraIndex";
  ix_role_arn := role_arn kendra_index_role;
  ix_edition := kendra_edition |}.

(* Create Kendra data source role *)
Definition kendra_ds_role : Role := {|
  role_id := "KendraDSRole";
  assumed_by := "kendra.amazonaws.com";
  role_name := Some (construct_id +:+ "-GoogleDriveDSRole");
  managed_policies := ["CloudWatchLogsFullAccess"];
  inline_policies := [
    ("KendraDataSourcePolicy", {| statements := [
       {| actions := ["kendra:BatchPutDocument"; "kendra:BatchDeleteDocument"];
          resources := [ix_attr_arn kendra_index] |} ] |});
    ("SecretsManagerPolicy", {| statements := [
       {| actions := ["secretsmanager:GetSecretValue"];
          resources := [google_drive_secret_arn] |} ] |})
  ] |}.

(* Create Kendra Google Drive data source *)
Definition kendra_ds : CfnDataSource := {|
  ds_id := "KendraDS";
  index_id := ix_attr_id kendra_index;
  ds_name := construct_id +:+ "-KendraGoogleDriveDS";
  ds_type := "GOOGLEDRIVE";
  data_source_configuration := {|
    google_drive_configuration :=
      Some {| secret_arn := google_drive_secret_arn |} |};
  ds_role_arn := role_arn kendra_ds_role |}.

(* Create a role for the DataSourceSyncLambda *)
Definition data_source_sync_lambda_role : Role := {|
  role_id := "DataSourceSyncLambdaRole";
  assumed_by := "lambda.amazonaws.com";
  role_name := None;
  managed_policies := ["CloudWatchLogsFullAccess"];
  inline_policies := [
    ("KendraDataSourceSyncPolicy", {| statements := [
       {| actions := [
            "kendra:StartDataSourceSyncJob";
            "kendra:StopDataSourceSyncJob"
          ];
          resources := [
            ix_attr_arn kendra_index;
            fstr [ix_attr_arn kendra_index; lit "/*"]
          ] |} ] |})
  ] |}.

(* Lambda function for initiating data source sync *)
Definition data_source_sync_lambda : Function := {|
  fn_id := "DataSourceSyncLambda";
  runtime := PYTHON_3_12;
  code := "src/dataSourceSync";
  handler := "dataSourceSyncLambda.lambda_handler";
  timeout := Duration.minutes 15;
  memory_size := 1024;
  role := data_source_sync_lambda_role;
  tracing := None;
  environment :=
    <["INDEX_ID" := ix_attr_id kendra_index]>
      (<["DS_ID" := ds_attr_id kendra_ds]> ∅) |}.

(* Trigger data source sync lambda *)
Definition data_source_sync_lambda_trigger : Trigger := {|
  tr_id := "data_source_sync_lambda_trigger";
  tr_handler := data_source_sync_lambda;
  tr_timeout := Duration.minutes 10;
  invocation_type := EVENT |}.

(* Create the IAM role for invoking Bedrock *)
Definition invoke_bedrock_lambda_role : Role := {|
  role_id := "InvokeBedRockLambdaRole";
  assumed_by := "lambda.amazonaws.com";
  role_name := None;
  managed_policies := ["CloudWatchLogsFullAccess"];
  inline_policies := [
    ("InvokeBedRockPolicy", {| statements := [
       {| actions := ["bedrock:InvokeModel"];
          resources := [
            fstr [lit "arn:aws:bedrock:"; region;
                  lit "::foundation-model/"; model_id]
          ] |} ] |});
    ("KendraRetrievalPolicy", {| statements := [
       {| actions := ["kendra:Retrieve"];
          resources := [ix_attr_arn kendra_index] |} ] |})
  ] |}.

(* Lambda function for invoking Bedrock *)
Definition invoke_bedrock_lambda : Function := {|
  fn_id := "InvokeBedrockLambda";
  runtime := PYTHON_3_12;
  code := "src/invokeBedrockLambda";
  handler := "invokeBedrockLambda.lambda_handler";
  timeout := Duration.seconds 120;
  memory_size := 3008;
  role := invoke_bedrock_lambda_role;
  tracing := Some ACTIVE;
  environment :=
    <["INDEX_ID" := ix_attr_id kendra_index]>
      (<["MODEL_ID" := model_id]> ∅) |}.

(* Output values *)
Definition output_kendra_index_role_arn : CfnOutput := {|
  out_id := "KendraIndexRoleArn";
  out_value := role_arn kendra_index_role;
  out_description := "Kendra index role ARN" |}.
Definition output_kendra_index_id : CfnOutput := {|
  out_id := "KendraIndexID";
  out_value := ix_attr_id kendra_index;
  out_description := "Kendra index ID" |}.
Definition output_kendra_google_drive_data_source_arn : CfnOutput := {|
  out_id := "KendraGoogleDriveDataSourceArn";
  out_value := ds_attr_arn kendra_ds;
  out_description := "Kendra Google Drive data source ARN" |}.
Definition output_data_source_sync_lambda_arn : CfnOutput := {|
  out_id := "DataSourceSyncLambdaArn";
  out_value := function_arn data_source_sync_lambda;
  out_description := "Data source sync lambda function ARN" |}.
Definition output_invoke_bedrock_lambda_arn : CfnOutput := {|
  out_id := "InvokeBedrockLambdaArn";
  out_value := function_arn invoke_bedrock_lambda;
  out_description := "Invoke bedrock lambda function ARN" |}.

(** The statements of [__init__], in order. *)
Definition init : Build unit :=
  (new_parameter model_id_param ;;
   new_parameter kendra_edition_param ;;
   new_parameter google_drive_secret_arn_param ;;
   new_role kendra_index_role ;;
   new_index kendra_index ;;
   new_role kendra_ds_role ;;
   new_data_source kendra_ds ;;
   (* Add dependency *)
   add_dependency (ds_id kendra_ds) (ix_id kendra_index) ;;
   new_role data_source_sync_lambda_role ;;
   new_function data_source_sync_lambda ;;
   new_trigger data_source_sync_lambda_trigger ;;
   new_role invoke_bedrock_lambda_role ;;
   new_function invoke_bedrock_lambda ;;
   (* Output values *)
   new_output output_kendra_index_role_arn ;;
   new_output output_kendra_index_id ;;
   new_output output_kendra_google_drive_data_source_arn ;;
   new_output output_data_source_sync_lambda_arn ;;
   new_output output_invoke_bedrock_lambda_arn ;;
   ret tt)%build.

End BedrockKendraGoogleDriveStack.

Definition BedrockKendraGoogleDriveStack (construct_id : string) : option Stack :=
  construct construct_id (init construct_id).

(** [app = cdk.App(); BedrockKendraGoogleDriveStack(app, ...); app.synth()] *)
Definition app : option Stack :=
  BedrockKendraGoogleDriveStack "BedrockKendraGoogleDriveStack".

(** ** Reading a synthesized stack *)

Module Template.

Definition parameters (s : Stack) : list CfnParameter :=
  omap (fun c => match c with CParameter p => Some p | _ => None end) (children s).
Definition roles (s : Stack) : list Role :=
  omap (fun c => match c with CRole r => Some r | _ => None end) (children s).
Definition indexes (s : Stack) : list CfnIndex :=
  omap (fun c => match c with CIndex i => Some i | _ => None end) (children s).
Definition data_sources (s : Stack) : list CfnDataSource :=
  omap (fun c => match c with CDataSource d => Some d | _ => None end) (children s).
Definition functions (s : Stack) : list Function :=
  omap (fun c => match c with CFunction f => Some f | _ => None end) (children s).
Definition triggers (s : Stack) : list Trigger :=
  omap (fun c => match c with CTrigger t => Some t | _ => None end) (children s).

Definition find_parameter (s : Stack) (id : string) : option CfnParameter :=
  find (fun p => bool_decide (param_id p = id)) (parameters s).
Definition find_role (s : Stack) (id : string) : option Role :=
  find (fun r => bool_decide (role_id r = id)) (roles s).
Definition find_function (s : Stack) (id : string) : option Function :=
  find (fun f => bool_decide (fn_id f = id)) (functions s).

(** What a role's inline policies allow. *)
Definition role_statements (r : Role) : list PolicyStatement :=
  flat_map (fun np => statements (snd np)) (inline_policies r).

Definition role_actions (r : Role) : list string :=
  flat_map actions (role_statements r).

Definition granted_resources (action : string) (r : Role) : list TokenStr :=
  flat_map resources
    (filter (fun st => action ∈ actions st) (role_statements r)).

(** The service prefix of an IAM action, [service:Operation]. *)
Fixpoint service_of (action : string) : string :=
  match action with
  | EmptyString => EmptyString
  | String c rest =>
      if Ascii.eqb c ":"%char then EmptyString else String c (service_of rest)
  end.

(** An action pattern without [*] and [?] allows the one action it names. *)
Fixpoint has_wildcard (pattern : string) : bool :=
  match pattern with
  | EmptyString => false
  | String c rest =>
      Ascii.eqb c "*"%char || Ascii.eqb c "?"%char || has_wildcard rest
  end.

(** The statements added to a role's default policy. *)
Definition default_policy (s : Stack) (r : Role) : list PolicyStatement :=
  snd <$> List.filter (fun p => bool_decide (fst p = role_id r))
            (attached_policies s).

(** All the statements the stack gives a role: inline and default policy. *)
Definition effective_statements (s : Stack) (r : Role) : list PolicyStatement :=
  role_statements r ++ default_policy s r.

Definition effective_actions (s : Stack) (r : Role) : list string :=
  flat_map actions (effective_statements s r).

Definition lower (c : ascii) : ascii :=
  let n := nat_of_ascii c in
  if (65 <=? n) && (n <=? 90) then ascii_of_nat (n + 32) else c.

(** IAM matches an action against a pattern without regard to case, with [*]
    for any run of characters and [?] for any one character. *)
Fixpoint glob (pattern text : list ascii) : bool :=
  match pattern with
  | [] => match text with [] => true | _ => false end
  | c :: pattern' =>
      if Ascii.eqb c "*"%char then
        (fix star (text : list ascii) : bool :=
           glob pattern' text
           || match text with
              | [] => false
              | _ :: text' => star text'
              end) text
      else
        match text with
        | [] => false
        | d :: text' =>
            (Ascii.eqb c "?"%char || Ascii.eqb (lower c) (lower d))
            && glob pattern' text'
        end
  end.

Definition action_matches (pattern action : string) : bool :=
  glob (list_ascii_of_string pattern) (list_ascii_of_string action).

(** The resource patterns on which the role is allowed [action], by any
    statement one of whose action patterns matches it. *)
Definition allowed_resources (s : Stack) (r : Role) (action : string)
  : list TokenStr :=
  flat_map resources
    (List.filter (fun st => existsb (fun p => action_matches p action) (actions st))
       (effective_statements s r)).

(** The logical ids a construct's properties refer to. *)
Definition token_refs (t : TokenStr) : list string :=
  flat_map (fun f => match f with
                     | FLit _ => []
                     | FRef i => [i]
                     | FGetAtt i _ => [i]
                     end) t.

Definition construct_refs (c : Construct) : list string :=
  match c with
  | CParameter _ => []
  | CRole r => flat_map token_refs (flat_map resources (role_statements r))
  | CIndex i => token_refs (ix_role_arn i) ++ token_refs (ix_edition i)
  | CDataSource d =>
      token_refs (index_id d)
      ++ match google_drive_configuration (data_source_configuration d) with
         | Some g => token_refs (secret_arn g)
         | None => []
         end
      ++ token_refs (ds_role_arn d)
  | CFunction f =>
      role_id (role f)
      :: flat_map (fun kv => token_refs (snd kv)) (map_to_list (environment f))
  | CTrigger t => [fn_id (tr_handler t)]
  | COutput o => token_refs (out_value o)
  end.

End Template.

Import Template.

(** ** Deployment of a synthesized stack

    The meaning CloudFormation and the CDK [Trigger] construct give to what
    the constructor declares: parameter validation, resolution of deploy-time
    values, creation order, and the invocations a deployment performs. *)

Module Deploy.

(** A parameter with [allowed_values] accepts exactly those values. *)
Definition param_accepts (p : CfnParameter) (v : string) : bool :=
  match allowed_values p with
  | [] => true
  | vs => bool_decide (v ∈ vs)
  end.

Definition param_value (inputs : gmap string string) (p : CfnParameter)
  : option string :=
  match inputs !! param_id p with
  | Some v => Some v
  | None => param_default p
  end.

(** The parameter values of a deployment, when every parameter the
    constructor declares has a value and every value is accepted.  Inputs for
    names the constructor does not declare are not looked at. *)
Fixpoint bind_parameters (ps : list CfnParameter) (inputs : gmap string string)
  : option (gmap string string) :=
  match ps with
  | [] => Some ∅
  | p :: ps' =>
      match param_value inputs p with
      | None => None
      | Some v =>
          if param_accepts p v then
            match bind_parameters ps' inputs with
            | Some m => Some (<[param_id p := v]> m)
            | None => None
            end
          else None
      end
  end.

Record Env : Type := {
  env_region : string;
  env_params : gmap string string;
  env_attrs : string -> string -> string
}.

Definition resolve_fragment (e : Env) (f : Fragment) : string :=
  match f with
  | FLit s => s
  | FRef i =>
      if bool_decide (i = "AWS::Region") then env_region e
      else default "" (env_params e !! i)
  | FGetAtt i a => env_attrs e i a
  end.

Definition resolve (e : Env) (t : TokenStr) : string :=
  foldr (fun f acc => resolve_fragment e f +:+ acc) "" t.

(** Whether the deployment waits for the handler to finish. *)
Definition waits_for_completion (t : InvocationType) : bool :=
  match t with
  | REQUEST_RESPONSE => true
  | EVENT => false
  | DRY_RUN => false
  end.

(** A deployment invokes the handler of each trigger once. *)
Definition deployment_invocations (s : Stack) : list (string * InvocationType) :=
  map (fun t => (fn_id (tr_handler t), invocation_type t)) (triggers s).

(** Dependency edges (dependent, dependency): the explicit ones and those
    CloudFormation infers from references. *)
Definition dependency_edges (s : Stack) : list (string * string) :=
  node_dependencies s
  ++ flat_map (fun c => map (fun r => (construct_id_of c, r)) (construct_refs c))
              (children s).

Fixpoint position (x : string) (l : list string) : option nat :=
  match l with
  | [] => None
  | y :: l' => if bool_decide (y = x) then Some 0 else S <$> position x l'
  end.

Definition created_before (order : list string) (a b : string) : bool :=
  match position a order, position b order with
  | Some i, Some j => i <? j
  | _, _ => false
  end.

(** A creation order is valid when it creates every construct of the stack,
    each after the constructs of the stack it depends on. *)
Definition valid_creation_order (s : Stack) (order : list string) : bool :=
  forallb (fun c => bool_decide (construct_id_of c ∈ order)) (children s)
  && forallb (fun e => negb (has_child s (snd e))
                       || created_before order (snd e) (fst e))
             (dependency_edges s).

End Deploy.

Import Deploy.

(** ** What the constructor builds *)

(** The scope after [__init__] has run: every construct once, in statement
    order, the one explicit dependency, and the X-Ray statement that
    [tracing=ACTIVE] adds to the role of the query function. *)
Definition synthesized (construct_id : string) : Stack := {|
  stack_id := construct_id;
  children := [
    CParameter model_id_param;
    CParameter kendra_edition_param;
    CParameter google_drive_secret_arn_param;
    CRole (kendra_index_role construct_id);
    CIndex (kendra_index construct_id);
    CRole (kendra_ds_role construct_id);
    CDataSource (kendra_ds construct_id);
    CRole (data_source_sync_lambda_role construct_id);
    CFunction (data_source_sync_lambda construct_id);
    CTrigger (data_source_sync_lambda_trigger construct_id);
    CRole (invoke_bedrock_lambda_role construct_id);
    CFunction (invoke_bedrock_lambda construct_id);
    COutput (output_kendra_index_role_arn construct_id);
    COutput (output_kendra_index_id construct_id);
    COutput (output_kendra_google_drive_data_source_arn construct_id);
    COutput (output_data_source_sync_lambda_arn construct_id);
    COutput (output_invoke_bedrock_lambda_arn construct_id)
  ];
  node_dependencies := [("KendraDS", "KendraIndex")];
  attached_policies := [("InvokeBedRockLambdaRole", xray_statement)] |}.

(** ** The two components the stack deploys

    The handlers [dataSourceSyncLambda.lambda_handler] and
    [invokeBedrockLambda.lambda_handler] are code assets the stack refers to
    by path; their sources are not part of [app.py].  The two modules below
    model them from the design document. *)

Module SyncOrchestrator.

(** Modelled from the spec: the states of a SyncJob (section 3); the source
    of the handler dataSourceSyncLambda is missing. *)
Inductive SyncJobState : Type :=
| Requested | Running | Succeeded | Failed | Stopped.

#[global] Instance SyncJobState_eq_dec : EqDecision SyncJobState.
Proof. solve_decision. Defined.

(** Modelled from the spec: a job is terminal on Succeeded, Failed and
    Stopped, and active otherwise (section 3, lifecycle). *)
Definition terminal (st : SyncJobState) : bool :=
  match st with
  | Succeeded | Failed | Stopped => true
  | Requested | Running => false
  end.

Definition active (st : SyncJobState) : bool := negb (terminal st).

(** Modelled from the spec: the SyncJob of section 3; the handler's source is
    missing.  The optional timestamps are left out. *)
Record SyncJob : Type := {
  indexId : string;
  dataSourceId : string;
  jobId : string;
  state : SyncJobState
}.

#[global] Instance SyncJob_eq_dec : EqDecision SyncJob.
Proof. solve_decision. Defined.

(** Modelled from the spec: the typed errors of section 4.1. *)
Inductive Error : Type :=
| PermissionDenied | NotFound | Conflict | Transient.

(** Modelled from the spec: what the external search-index service answers to
    StartSync (section 6). *)
Inductive StartReply : Type :=
| Started (job_id : string)
| StartFailed (e : Error).

(** Modelled from the spec: the locally tracked in-flight state of section
    4.1, step 1, together with the log of the calls issued to the external
    service, start-sync calls by pair and stop calls by job. *)
Record Orchestrator : Type := {
  jobs : list SyncJob;
  start_calls : list (string * string);
  stop_calls : list string
}.

Definition initial : Orchestrator :=
  {| jobs := []; start_calls := []; stop_calls := [] |}.

Definition is_active_for (idx ds : string) (j : SyncJob) : bool :=
  bool_decide (indexId j = idx)
  && bool_decide (dataSourceId j = ds)
  && active (state j).

Definition active_job (o : Orchestrator) (idx ds : string) : option SyncJob :=
  find (is_active_for idx ds) (jobs o).

(** Modelled from the spec: RequestSync of section 4.1, steps 1 and 2, and
    its failure semantics; the handler's source is missing.  The check and
    the start are one atomic step, as section 5 requires (mutual exclusion
    keyed by the pair); [reply] is what the external service answers if it
    is called.  There is no retry inside the component. *)
Definition RequestSync (idx ds : string) (reply : StartReply) (o : Orchestrator)
  : (SyncJob + Error) * Orchestrator :=
  match active_job o idx ds with
  | Some j => (inl j, o)
  | None =>
      let calls := (idx, ds) :: start_calls o in
      match reply with
      | Started job_id =>
          let j := {| indexId := idx; dataSourceId := ds;
                      jobId := job_id; state := Running |} in
          (inl j, {| jobs := j :: jobs o;
                     start_calls := calls;
                     stop_calls := stop_calls o |})
      | StartFailed e =>
          (inr e, {| jobs := jobs o;
                     start_calls := calls;
                     stop_calls := stop_calls o |})
      end
  end.

Definition find_job (o : Orchestrator) (job_id : string) : option SyncJob :=
  find (fun j => bool_decide (jobId j = job_id)) (jobs o).

Definition finished (o : Orchestrator) (job_id : string) : bool :=
  match find_job o job_id with
  | Some j => terminal (state j)
  | None => false
  end.

(** Modelled from the spec: StopSync of section 4.1, step 3, and the scenario
    of section 8: on a job known to be finished it is a no-op success;
    otherwise it signals the external service, whose answer [reply] it
    returns.  The halt itself is observed later, by polling. *)
Definition StopSync (job_id : string) (reply : option Error) (o : Orchestrator)
  : option Error * Orchestrator :=
  if finished o job_id then (None, o)
  else (reply, {| jobs := jobs o;
                  start_calls := start_calls o;
                  stop_calls := job_id :: stop_calls o |}).

Definition observe (job_id : string) (observed : SyncJobState) (j : SyncJob)
  : SyncJob :=
  if bool_decide (jobId j = job_id) && active (state j)
  then {| indexId := indexId j; dataSourceId := dataSourceId j;
          jobId := jobId j; state := observed |}
  else j.

(** Modelled from the spec: GetStatus of section 4.1, step 4: polling drives
    the transitions of a job until it is terminal; [observed] is the state
    the external service reports. *)
Definition GetStatus (job_id : string) (observed : SyncJobState) (o : Orchestrator)
  : option SyncJobState * Orchestrator :=
  let o' := {| jobs := map (observe job_id observed) (jobs o);
               start_calls := start_calls o;
               stop_calls := stop_calls o |} in
  (state <$> find_job o' job_id, o').

(** Modelled from the spec: one invocation of the orchestrator.  Concurrent
    invocations are serialized by the mutual exclusion of section 5, so a
    concurrent execution is a sequence of operations in some order. *)
Inductive Op : Type :=
| OpRequestSync (idx ds : string) (reply : StartReply)
| OpStopSync (job_id : string) (reply : option Error)
| OpGetStatus (job_id : string) (observed : SyncJobState).

Definition step (o : Orchestrator) (op : Op) : Orchestrator :=
  match op with
  | OpRequestSync idx ds reply => (RequestSync idx ds reply o).2
  | OpStopSync job_id reply => (StopSync job_id reply o).2
  | OpGetStatus job_id observed => (GetStatus job_id observed o).2
  end.

Definition run (o : Orchestrator) (ops : list Op) : Orchestrator :=
  foldl step o ops.

Definition is_request (op : Op) : bool :=
  match op with
  | OpRequestSync _ _ _ => true
  | _ => false
  end.

Definition active_count (idx ds : string) (o : Orchestrator) : nat :=
  length (List.filter (is_active_for idx ds) (jobs o)).

Definition calls_for (idx ds : string) (o : Orchestrator) : nat :=
  length (List.filter (fun c => bool_decide (c = (idx, ds))) (start_calls o)).

(** Modelled from the spec: the invariant of section 3, at most one active
    SyncJob per (indexId, dataSourceId) pair. *)
Definition at_most_one_active (o : Orchestrator) : Prop :=
  forall idx ds, active_count idx ds o <= 1.

End SyncOrchestrator.

Module QueryService.

(** Modelled from the spec: the passages of a RetrievalResult (section 3);
    the relevance score, a float in the spec, is a rational here. *)
Record Passage : Type := {
  text : string;
  sourceUri : string;
  score : Q
}.

(** Modelled from the spec: GenerationResponse (section 3), with the mark
    section 4.2 asks for when there is no context. *)
Record GenerationResponse : Type := {
  answer : string;
  citations : list string;
  grounded : bool
}.

(** Modelled from the spec: the failures of section 4.2. *)
Inductive Error : Type :=
| RetrievalFailed | GenerationFailed | InvalidInput.

(** Modelled from the spec: what the search index answers to Retrieve
    (section 6): ranked passages, possibly none, or no answer at all. *)
Inductive RetrieveReply : Type :=
| Passages (ps : list Passage)
| Unreachable.

(** Modelled from the spec: what the generation model answers to Invoke
    (section 6): text, throttling, or another invocation error. *)
Inductive InvokeReply : Type :=
| Text (t : string)
| Throttled
| ModelError.

(** Modelled from the spec: the configuration of section 9, with the policies
    the spec leaves configurable: the retrieval count, the prompt
    instructions, the input budget, the retry cap and the citation
    heuristic. *)
Record Config : Type := {
  cfg_indexId : string;
  cfg_modelId : string;
  K : nat;
  budget : nat;
  max_attempts : nat;
  instructions : string;
  referenced : string -> string -> bool
}.

(** Modelled from the spec: the external services of section 6; the third
    argument of [invoke] is the number of the attempt. *)
Record Services : Type := {
  retrieve : string -> string -> nat -> RetrieveReply;
  invoke : string -> string -> nat -> InvokeReply
}.

Section Answer.

Variable cfg : Config.
Variable svc : Services.

Definition newline : string := String (ascii_of_nat 10) "".

Definition render (p : Passage) : string :=
  "[" +:+ sourceUri p +:+ "] " +:+ text p +:+ newline.

(** Modelled from the spec: the prompt of stage 2: the instructions, each
    passage labeled with its source, in order, then the query. *)
Definition build_prompt (query : string) (ps : list Passage) : string :=
  instructions cfg +:+ foldr (fun p acc => render p +:+ acc) "" ps +:+ query.

Definition fits (query : string) (ps : list Passage) : bool :=
  String.length (build_prompt query ps) <=? budget cfg.

(** Modelled from the spec: the truncation policy of stage 2, first part:
    drop the lowest-scored passages first; passages come ranked, so the
    lowest-scored is the last. *)
Fixpoint drop_lowest (query : string) (ps : list Passage) (fuel : nat)
  : list Passage :=
  match fuel with
  | O => ps
  | S fuel' =>
      if fits query ps then ps
      else match ps with
           | [] | [_] => ps
           | _ => drop_lowest query (removelast ps) fuel'
           end
  end.

Definition longest (ps : list Passage) : nat :=
  foldr (fun p acc => Nat.max (String.length (text p)) acc) 0 ps.

(** Modelled from the spec: the truncation policy of stage 2, second part:
    shorten the text of the longest remaining passage by the excess, keeping
    its source label. *)
Fixpoint truncate_longest (excess : nat) (ps : list Passage) : list Passage :=
  match ps with
  | [] => []
  | p :: ps' =>
      if String.length (text p) =? longest ps then
        {| text := substring 0 (String.length (text p) - excess) (text p);
           sourceUri := sourceUri p;
           score := score p |} :: ps'
      else p :: truncate_longest excess ps'
  end.

Definition fit (query : string) (ps : list Passage) : list Passage :=
  let kept := drop_lowest query ps (length ps) in
  if fits query kept then kept
  else truncate_longest
         (String.length (build_prompt query kept) - budget cfg) kept.

(** Modelled from the spec: the generation call: throttling is retried up
    to the attempt cap, any other failure surfaces at once. *)
Fixpoint generate (prompt : string) (attempts_left attempt : nat)
  : option string :=
  match attempts_left with
  | O => None
  | S remaining =>
      match invoke svc (cfg_modelId cfg) prompt attempt with
      | Text t => Some t
      | Throttled => generate prompt remaining (S attempt)
      | ModelError => None
      end
  end.

Fixpoint dedup (l : list string) : list string :=
  match l with
  | [] => []
  | x :: l' => x :: List.filter (fun y => negb (bool_decide (y = x))) (dedup l')
  end.

(** Modelled from the spec: the citations: the retrieved sources the answer
    refers to, or all retrieved sources when none is attributable. *)
Definition cite (answer_text : string) (ps : list Passage) : list string :=
  let sources := dedup (sourceUri <$> ps) in
  match List.filter (referenced cfg answer_text) sources with
  | [] => sources
  | hits => hits
  end.

(** Modelled from the spec: Answer of section 4.2; the handler's source is
    missing. *)
Definition Answer (query : string) : GenerationResponse + Error :=
  if bool_decide (query = "") then inr InvalidInput
  else
    match retrieve svc (cfg_indexId cfg) query (K cfg) with
    | Unreachable => inr RetrievalFailed
    | Passages ps =>
        let kept := fit query ps in
        match generate (build_prompt query kept) (max_attempts cfg) 0 with
        | None => inr GenerationFailed
        | Some t =>
            inl {| answer := t;
                   citations := cite t kept;
                   grounded := match kept with [] => false | _ => true end |}
        end
    end.

End Answer.

End QueryService.

(** ** The stack as a whole *)

Module Inventory.

Definition outputs (s : Stack) : list CfnOutput :=
  omap (fun c => match c with COutput o => Some o | _ => None end) (children s).

Definition find_output (s : Stack) (id : string) : option CfnOutput :=
  find (fun o => bool_decide (out_id o = id)) (outputs s).

(** The role names the constructor fixes itself ([role_name=...]); a role
    without one is named by CloudFormation. *)
Definition role_names (s : Stack) : list string := omap role_name (roles s).

(** A construct with the names that embed the construct id blanked. *)
Definition anonymize_role (r : Role) : Role := {|
  role_id := role_id r;
  assumed_by := assumed_by r;
  role_name := None;
  managed_policies := managed_policies r;
  inline_policies := inline_policies r |}.

Definition anonymize_function (f : Function) : Function := {|
  fn_id := fn_id f;
  runtime := runtime f;
  code := code f;
  handler := handler f;
  timeout := timeout f;
  memory_size := memory_size f;
  role := anonymize_role (role f);
  tracing := tracing f;
  environment := environment f |}.

Definition anonymize (c : Construct) : Construct :=
  match c with
  | CParameter p => CParameter p
  | CRole r => CRole (anonymize_role r)
  | CIndex i =>
      CIndex {| ix_id := ix_id i; ix_name := "";
                ix_role_arn := ix_role_arn i; ix_edition := ix_edition i |}
  | CDataSource d =>
      CDataSource {| ds_id := ds_id d; index_id := index_id d; ds_name := "";
                     ds_type := ds_type d;
                     data_source_configuration := data_source_configuration d;
                     ds_role_arn := ds_role_arn d |}
  | CFunction f => CFunction (anonymize_function f)
  | CTrigger t =>
      CTrigger {| tr_id := tr_id t;
                  tr_handler := anonymize_function (tr_handler t);
                  tr_timeout := tr_timeout t;
                  invocation_type := invocation_type t |}
  | COutput o => COutput o
  end.

(** The constructs of the stack that refer to the logical id [id]. *)
Definition referrers (s : Stack) (id : string) : list string :=
  construct_id_of
    <$> List.filter (fun c => bool_decide (id ∈ construct_refs c)) (children s).

(** The environment of a deployment that supplies [inputs]. *)
Definition deployment (rgn : string) (params : gmap string string)
    (attrs : string -> string -> string) : Env :=
  {| env_region := rgn; env_params := params; env_attrs := attrs |}.

End Inventory.

Import Inventory.

(** A deployment that supplies the secret and leaves the rest to defaults. *)
Definition demo_secret : string :=
  "arn:aws:secretsmanager:us-east-1:111122223333:secret:gdrive".

Definition demo_inputs : gmap string string :=
  {[ "GoogleDriveSecretArn" := demo_secret ]}.

Definition demo_params : gmap string string :=
  <["ModelId" := "anthropic.claude-instant-v1"]>
    (<["KendraEdition" := "DEVELOPER_EDITION"]>
       (<["GoogleDriveSecretArn" := demo_secret]> ∅)).

(** A configuration and services to run the Query Service on. *)
Definition demo_cfg : QueryService.Config := {|
  QueryService.cfg_indexId := "index";
  QueryService.cfg_modelId := "anthropic.claude-instant-v1";
  QueryService.K := 5;
  QueryService.budget := 4000;
  QueryService.max_attempts := 3;
  QueryService.instructions := "Answer only from the context below. ";
  QueryService.referenced := fun _ _ => false |}.

(** An empty index, and a model that is throttled twice before it answers. *)
Definition demo_svc : QueryService.Services := {|
  QueryService.retrieve := fun _ _ _ => QueryService.Passages [];
  QueryService.invoke := fun _ _ attempt =>
    if attempt <? 2 then QueryService.Throttled
    else QueryService.Text "I could not find this in the documents." |}.

(** An empty index, and a model whose invocation fails. *)
Definition failing_svc : QueryService.Services := {|
  QueryService.retrieve := fun _ _ _ => QueryService.Passages [];
  QueryService.invoke := fun _ _ _ => QueryService.ModelError |}.

(** * Properties *)

Lemma synth_eq (construct_id : string) :
  BedrockKendraGoogleDriveStack construct_id = Some (synthesized construct_id).
Proof. vm_compute. reflexivity. Qed.

Lemma synth_total (construct_id : string) :
  is_Some (BedrockKendraGoogleDriveStack construct_id).
Proof. rewrite synth_eq. eauto. Qed.

Lemma synth_roles (construct_id : string) :
  roles (synthesized construct_id)
  = [kendra_index_role construct_id; kendra_ds_role construct_id;
     data_source_sync_lambda_role construct_id;
     invoke_bedrock_lambda_role construct_id].
Proof. reflexivity. Qed.

Lemma synth_functions (construct_id : string) :
  functions (synthesized construct_id)
  = [data_source_sync_lambda construct_id; invoke_bedrock_lambda construct_id].
Proof. reflexivity. Qed.

Lemma synth_triggers (construct_id : string) :
  triggers (synthesized construct_id)
  = [data_source_sync_lambda_trigger construct_id].
Proof. reflexivity. Qed.

Lemma synth_indexes (construct_id : string) :
  indexes (synthesized construct_id) = [kendra_index construct_id].
Proof. reflexivity. Qed.

Lemma synth_data_sources (construct_id : string) :
  data_sources (synthesized construct_id) = [kendra_ds construct_id].
Proof. reflexivity. Qed.

Ltac synth cid := exists (synthesized cid); split; [apply synth_eq |].

(** *** Variables of the two function environments *)

Lemma sync_env_lookup (construct_id k : string) (v : TokenStr) :
  environment (data_source_sync_lambda construct_id) !! k = Some v ->
  (k = "INDEX_ID" /\ v = ix_attr_id (kendra_index construct_id))
  \/ (k = "DS_ID" /\ v = ds_attr_id (kendra_ds construct_id)).
Proof.
  cbn [environment data_source_sync_lambda]. intros H.
  destruct (decide (k = "INDEX_ID")) as [-> | Hne].
  - rewrite lookup_insert_eq in H. left. split; congruence.
  - rewrite lookup_insert_ne in H by congruence.
    destruct (decide (k = "DS_ID")) as [-> | Hne'].
    + rewrite lookup_insert_eq in H. right. split; congruence.
    + rewrite lookup_insert_ne in H by congruence.
      rewrite lookup_empty in H. discriminate.
Qed.

Lemma query_env_lookup (construct_id k : string) (v : TokenStr) :
  environment (invoke_bedrock_lambda construct_id) !! k = Some v ->
  (k = "INDEX_ID" /\ v = ix_attr_id (kendra_index construct_id))
  \/ (k = "MODEL_ID" /\ v = model_id).
Proof.
  cbn [environment invoke_bedrock_lambda]. intros H.
  destruct (decide (k = "INDEX_ID")) as [-> | Hne].
  - rewrite lookup_insert_eq in H. left. split; congruence.
  - rewrite lookup_insert_ne in H by congruence.
    destruct (decide (k = "MODEL_ID")) as [-> | Hne'].
    + rewrite lookup_insert_eq in H. right. split; congruence.
    + rewrite lookup_insert_ne in H by congruence.
      rewrite lookup_empty in H. discriminate.
Qed.

(** C1, with the data-source variable under the name the code gives it: in
    every synthesized stack the sync function's
    environment holds the created index id under INDEX_ID and the created
    data-source id under DS_ID, and nothing else; the query function's
    environment holds the index id under INDEX_ID and the model id under
    MODEL_ID, and nothing else; among the stack's functions the model id
    reaches the query function only and the data-source id the sync function
    only. *)
Theorem C1_environment_variables (construct_id : string) :
  exists s, BedrockKendraGoogleDriveStack construct_id = Some s /\
    let sync := data_source_sync_lambda construct_id in
    let query := invoke_bedrock_lambda construct_id in
    find_function s "DataSourceSyncLambda" = Some sync
    /\ find_function s "InvokeBedrockLambda" = Some query
    /\ indexes s = [kendra_index construct_id]
    /\ data_sources s = [kendra_ds construct_id]
    /\ find_parameter s "ModelId" = Some model_id_param
    /\ environment sync !! "INDEX_ID" = Some (ix_attr_id (kendra_index construct_id))
    /\ environment sync !! "DS_ID" = Some (ds_attr_id (kendra_ds construct_id))
    /\ environment query !! "INDEX_ID" = Some (ix_attr_id (kendra_index construct_id))
    /\ environment query !! "MODEL_ID" = Some (value_as_string model_id_param)
    /\ dom (environment sync) = {[ "INDEX_ID"; "DS_ID" ]}
    /\ dom (environment query) = {[ "INDEX_ID"; "MODEL_ID" ]}
    /\ (forall f k, f ∈ functions s ->
          environment f !! k = Some (value_as_string model_id_param) ->
          f = query /\ k = "MODEL_ID")
    /\ (forall f k, f ∈ functions s ->
          environment f !! k = Some (ds_attr_id (kendra_ds construct_id)) ->
          f = sync /\ k = "DS_ID").
Proof.
  synth construct_id. cbv zeta.
  repeat match goal with |- _ /\ _ => split end; try reflexivity.
  - intros f k Hf Hk. rewrite synth_functions in Hf.
    apply elem_of_cons in Hf as [-> | Hf].
    + apply sync_env_lookup in Hk as [[_ Hv] | [_ Hv]]; discriminate Hv.
    + apply list_elem_of_singleton in Hf as ->.
      apply query_env_lookup in Hk as [[_ Hv] | [Hk _]]; [discriminate Hv | done].
  - intros f k Hf Hk. rewrite synth_functions in Hf.
    apply elem_of_cons in Hf as [-> | Hf].
    + apply sync_env_lookup in Hk as [[_ Hv] | [Hk _]]; [discriminate Hv | done].
    + apply list_elem_of_singleton in Hf as ->.
      apply query_env_lookup in Hk as [[_ Hv] | [_ Hv]]; discriminate Hv.
Qed.

(** The claim as written fails on the stack that [app.py] synthesizes: the sync
    function's environment has no variable named DATA_SOURCE_ID. *)
Lemma C1_counterexample :
  exists s sync,
    app = Some s
    /\ find_function s "DataSourceSyncLambda" = Some sync
    /\ environment sync !! "DATA_SOURCE_ID" = None.
Proof.
  exists (synthesized "BedrockKendraGoogleDriveStack"),
         (data_source_sync_lambda "BedrockKendraGoogleDriveStack").
  split; [apply synth_eq |]. split; reflexivity.
Qed.

(** C2: in every synthesized stack there is exactly one trigger; its handler
    is the sync function and its invocation type is EVENT, for which a
    deployment does not wait; a deployment therefore invokes the sync function
    exactly once, asynchronously. *)
Theorem C2_sync_trigger (construct_id : string) :
  exists s, BedrockKendraGoogleDriveStack construct_id = Some s /\
    let sync := data_source_sync_lambda construct_id in
    let t := data_source_sync_lambda_trigger construct_id in
    find_function s "DataSourceSyncLambda" = Some sync
    /\ triggers s = [t]
    /\ tr_handler t = sync
    /\ handler (tr_handler t) = "dataSourceSyncLambda.lambda_handler"
    /\ invocation_type t = EVENT
    /\ waits_for_completion (invocation_type t) = false
    /\ deployment_invocations s = [(fn_id sync, EVENT)]
    /\ length (filter (fun i => i.1 = fn_id sync) (deployment_invocations s)) = 1.
Proof.
  synth construct_id. cbv zeta.
  repeat match goal with |- _ /\ _ => split end; reflexivity.
Qed.

(** C5: in every synthesized stack the query function's timeout is 120
    seconds (two minutes) and the sync function's is 15 minutes, that is 900
    seconds; every function of the stack has a positive timeout of at most 900
    seconds. *)
Theorem C5_timeouts (construct_id : string) :
  exists s, BedrockKendraGoogleDriveStack construct_id = Some s /\
    let sync := data_source_sync_lambda construct_id in
    let query := invoke_bedrock_lambda construct_id in
    find_function s "DataSourceSyncLambda" = Some sync
    /\ find_function s "InvokeBedrockLambda" = Some query
    /\ Duration.to_seconds (timeout query) = 120%Z
    /\ timeout query = Duration.minutes 2
    /\ timeout sync = Duration.minutes 15
    /\ Duration.to_seconds (timeout sync) = 900%Z
    /\ (forall f, f ∈ functions s ->
          (0 < Duration.to_seconds (timeout f) <= 900)%Z).
Proof.
  synth construct_id. cbv zeta.
  repeat match goal with |- _ /\ _ => split end; try reflexivity.
  intros f Hf. rewrite synth_functions in Hf.
  apply elem_of_cons in Hf as [-> | Hf];
    [| apply list_elem_of_singleton in Hf as ->]; cbn; lia.
Qed.

(** *** Permissions *)

Example action_matches_examples :
  action_matches "kendra:Retrieve" "kendra:Retrieve" = true
  /\ action_matches "kendra:*" "kendra:Retrieve" = true
  /\ action_matches "*" "bedrock:InvokeModel" = true
  /\ action_matches "KENDRA:retrieve" "kendra:Retrieve" = true
  /\ action_matches "kendra:Retriev?" "kendra:Retrieve" = true
  /\ action_matches "kendra:Retrieve" "kendra:RetrieveAll" = false
  /\ action_matches "xray:*" "kendra:Retrieve" = false.
Proof. repeat split; reflexivity. Qed.

Ltac elem_cases H :=
  repeat (apply elem_of_cons in H as [H | H]; [try subst |]);
  try (apply elem_of_nil in H; destruct H).

Ltac elem_here :=
  repeat first [apply list_elem_of_here | apply list_elem_of_further].

Ltac conjuncts := cbv zeta; repeat match goal with |- _ /\ _ => split end.

Lemma string_app_nil_r (x : string) : x +:+ "" = x.
Proof.
  induction x as [| c x IH]; [reflexivity |].
  change (String c (x +:+ "") = String c x). by rewrite IH.
Qed.

Lemma resolve_singleton (e : Env) (f : Fragment) :
  resolve e [f] = resolve_fragment e f.
Proof. unfold resolve. simpl foldr. apply string_app_nil_r. Qed.

Lemma resolve_cons (e : Env) (f : Fragment) (t : TokenStr) :
  resolve e (f :: t) = resolve_fragment e f +:+ resolve e t.
Proof. reflexivity. Qed.


(** C4: in every synthesized stack there is exactly one index.  Among all the
    statements the stack gives the query function's role (its inline policies
    and the X-Ray statement that tracing adds), the only action pattern that
    matches kendra:Retrieve is kendra:Retrieve itself, no action pattern has a
    wildcard, and the action is allowed on one resource: the ARN of that
    index, whatever value the deployment gives it.  The INDEX_ID of the query
    function's environment is that same index's id.  The role's only managed
    policy is CloudWatchLogsFullAccess. *)
Theorem C4_retrieval_scope (construct_id : string) :
  exists s, BedrockKendraGoogleDriveStack construct_id = Some s /\
    let query := invoke_bedrock_lambda construct_id in
    let ix := kendra_index construct_id in
    find_function s "InvokeBedrockLambda" = Some query
    /\ indexes s = [ix]
    /\ granted_resources "kendra:Retrieve" (role query) = [ix_attr_arn ix]
    /\ environment query !! "INDEX_ID" = Some (ix_attr_id ix)
    /\ (forall e, resolve e <$> granted_resources "kendra:Retrieve" (role query)
                  = [env_attrs e (ix_id ix) "Arn"])
    /\ (forall e, resolve e <$> environment query !! "INDEX_ID"
                  = Some (env_attrs e (ix_id ix) "Id"))
    /\ effective_statements s (role query)
       = role_statements (role query) ++ [xray_statement]
    /\ effective_actions s (role query)
       = ["bedrock:InvokeModel"; "kendra:Retrieve";
          "xray:PutTraceSegments"; "xray:PutTelemetryRecords"]
    /\ forallb (fun a => negb (has_wildcard a)) (effective_actions s (role query))
       = true
    /\ (forall a, a ∈ effective_actions s (role query) ->
          action_matches a "kendra:Retrieve" = true -> a = "kendra:Retrieve")
    /\ allowed_resources s (role query) "kendra:Retrieve" = [ix_attr_arn ix]
    /\ (forall e, resolve e <$> allowed_resources s (role query) "kendra:Retrieve"
                  = [env_attrs e (ix_id ix) "Arn"])
    /\ managed_policies (role query) = ["CloudWatchLogsFullAccess"].
Proof.
  synth construct_id. conjuncts.
  - reflexivity.
  - reflexivity.
  - reflexivity.
  - reflexivity.
  - intros e.
    change ([resolve e [FGetAtt "KendraIndex" "Arn"]] = [env_attrs e "KendraIndex" "Arn"]).
    by rewrite resolve_singleton.
  - intros e.
    change (Some (resolve e [FGetAtt "KendraIndex" "Id"])
            = Some (env_attrs e "KendraIndex" "Id")).
    by rewrite resolve_singleton.
  - reflexivity.
  - reflexivity.
  - reflexivity.
  - intros a Ha Hm.
    change (effective_actions (synthesized construct_id)
              (role (invoke_bedrock_lambda construct_id)))
      with ["bedrock:InvokeModel"; "kendra:Retrieve";
            "xray:PutTraceSegments"; "xray:PutTelemetryRecords"] in Ha.
    elem_cases Ha; first [reflexivity | discriminate Hm].
  - vm_compute. reflexivity.
  - intros e.
    change (allowed_resources (synthesized construct_id)
              (role (invoke_bedrock_lambda construct_id)) "kendra:Retrieve")
      with [[FGetAtt "KendraIndex" "Arn"]].
    cbn [fmap list_fmap]. by rewrite resolve_singleton.
  - reflexivity.
Qed.

(** C10, with the query role's tracing statement counted: in every
    synthesized stack the sync function's role has one inline policy, which
    allows exactly kendra:StartDataSourceSyncJob and
    kendra:StopDataSourceSyncJob, and the stack gives the role no other
    statement; the inline policies of the query function's role allow exactly
    bedrock:InvokeModel and kendra:Retrieve, and the one other statement the
    stack gives that role is the X-Ray statement tracing adds
    (xray:PutTraceSegments, xray:PutTelemetryRecords); the action names carry
    no wildcard and none is allowed to both roles.  Both roles attach the
    CloudWatchLogsFullAccess managed policy and no other. *)
Theorem C10_disjoint_permissions (construct_id : string) :
  exists s, BedrockKendraGoogleDriveStack construct_id = Some s /\
    let sync := data_source_sync_lambda construct_id in
    let query := invoke_bedrock_lambda construct_id in
    find_function s "DataSourceSyncLambda" = Some sync
    /\ find_function s "InvokeBedrockLambda" = Some query
    /\ role sync ∈ roles s
    /\ role query ∈ roles s
    /\ fst <$> inline_policies (role sync) = ["KendraDataSourceSyncPolicy"]
    /\ role_actions (role sync)
       = ["kendra:StartDataSourceSyncJob"; "kendra:StopDataSourceSyncJob"]
    /\ fst <$> inline_policies (role query)
       = ["InvokeBedRockPolicy"; "KendraRetrievalPolicy"]
    /\ role_actions (role query) = ["bedrock:InvokeModel"; "kendra:Retrieve"]
    /\ (forall a, a ∈ role_actions (role sync) -> a ∉ role_actions (role query))
    /\ ("kendra:Retrieve" ∉ role_actions (role sync))
    /\ ("bedrock:InvokeModel" ∉ role_actions (role sync))
    /\ ("kendra:StartDataSourceSyncJob" ∉ role_actions (role query))
    /\ ("kendra:StopDataSourceSyncJob" ∉ role_actions (role query))
    /\ forallb (fun a => negb (has_wildcard a))
         (role_actions (role sync) ++ role_actions (role query)) = true
    /\ managed_policies (role sync) = ["CloudWatchLogsFullAccess"]
    /\ managed_policies (role query) = ["CloudWatchLogsFullAccess"]
    /\ tracing sync = None
    /\ tracing query = Some ACTIVE
    /\ default_policy s (role sync) = []
    /\ default_policy s (role query) = [xray_statement]
    /\ effective_actions s (role sync)
       = ["kendra:StartDataSourceSyncJob"; "kendra:StopDataSourceSyncJob"]
    /\ effective_actions s (role query)
       = ["bedrock:InvokeModel"; "kendra:Retrieve";
          "xray:PutTraceSegments"; "xray:PutTelemetryRecords"]
    /\ forallb (fun a => negb (has_wildcard a))
         (effective_actions s (role sync) ++ effective_actions s (role query))
       = true
    /\ (forall a b, a ∈ effective_actions s (role sync) ->
          b ∈ effective_actions s (role query) ->
          action_matches a b = false /\ action_matches b a = false).
Proof.
  synth construct_id. conjuncts; try reflexivity.
  - rewrite synth_roles. elem_here.
  - rewrite synth_roles. elem_here.
  - intros a Ha Hq. cbn in Ha, Hq. elem_cases Ha; elem_cases Hq; discriminate.
  - intros H. cbn in H. elem_cases H; discriminate.
  - intros H. cbn in H. elem_cases H; discriminate.
  - intros H. cbn in H. elem_cases H; discriminate.
  - intros H. cbn in H. elem_cases H; discriminate.
  - intros a b Ha Hb.
    change (effective_actions (synthesized construct_id)
              (role (data_source_sync_lambda construct_id)))
      with ["kendra:StartDataSourceSyncJob"; "kendra:StopDataSourceSyncJob"] in Ha.
    change (effective_actions (synthesized construct_id)
              (role (invoke_bedrock_lambda construct_id)))
      with ["bedrock:InvokeModel"; "kendra:Retrieve";
            "xray:PutTraceSegments"; "xray:PutTelemetryRecords"] in Hb.
    elem_cases Ha; elem_cases Hb; split; reflexivity.
Qed.

(** The claim as written fails on the stack that [app.py] synthesizes: the
    query function's role is also allowed xray:PutTraceSegments, which is
    neither kendra:Retrieve nor bedrock:InvokeModel. *)
Lemma C10_counterexample :
  exists s query,
    app = Some s
    /\ find_function s "InvokeBedrockLambda" = Some query
    /\ tracing query = Some ACTIVE
    /\ "xray:PutTraceSegments" ∈ effective_actions s (role query)
    /\ "xray:PutTraceSegments" <> "kendra:Retrieve"
    /\ "xray:PutTraceSegments" <> "bedrock:InvokeModel".
Proof.
  exists (synthesized "BedrockKendraGoogleDriveStack"),
         (invoke_bedrock_lambda "BedrockKendraGoogleDriveStack").
  split; [apply synth_eq |]. split; [reflexivity |]. split; [reflexivity |].
  split; [| split; discriminate].
  change (effective_actions (synthesized "BedrockKendraGoogleDriveStack")
            (role (invoke_bedrock_lambda "BedrockKendraGoogleDriveStack")))
    with ["bedrock:InvokeModel"; "kendra:Retrieve";
          "xray:PutTraceSegments"; "xray:PutTelemetryRecords"].
  elem_here.
Qed.

(** *** The model identifier *)

Lemma model_id_accepts (v : string) :
  param_accepts model_id_param v = true <-> v ∈ allowed_values model_id_param.
Proof. unfold param_accepts. cbn [allowed_values model_id_param]. apply bool_decide_eq_true. Qed.

Lemma bind_parameters_model_id (construct_id : string)
    (inputs params : gmap string string) :
  bind_parameters (parameters (synthesized construct_id)) inputs = Some params ->
  exists m, params !! "ModelId" = Some m /\ m ∈ allowed_values model_id_param.
Proof.
  change (parameters (synthesized construct_id))
    with [model_id_param; kendra_edition_param; google_drive_secret_arn_param].
  cbn [bind_parameters]. intros H.
  destruct (param_value inputs model_id_param) as [m |] eqn:Hm; [| discriminate H].
  destruct (param_accepts model_id_param m) eqn:Hacc; [| discriminate H].
  destruct (param_value inputs kendra_edition_param) as [k |]; [| discriminate H].
  destruct (param_accepts kendra_edition_param k); [| discriminate H].
  destruct (param_value inputs google_drive_secret_arn_param) as [g |];
    [| discriminate H].
  destruct (param_accepts google_drive_secret_arn_param g); [| discriminate H].
  injection H as <-. exists m. split.
  - apply lookup_insert_eq.
  - by apply model_id_accepts.
Qed.

(** C8: in every synthesized stack the ModelId parameter defaults to
    anthropic.claude-instant-v1 and accepts exactly the four listed model
    identifiers, none of which holds a wildcard.  Among all the statements the
    stack gives the query function's role (its inline policies and the X-Ray
    statement that tracing adds), the only action pattern that matches
    bedrock:InvokeModel is bedrock:InvokeModel itself, it is the role's only
    bedrock action, no action pattern has a wildcard, and the action is
    allowed on one resource, the foundation-model ARN built from the region
    and the parameter; in every deployment whose parameters are accepted that
    resource is the ARN of the selected model, which is one of the four.  The
    role's only managed policy is CloudWatchLogsFullAccess. *)
Theorem C8_model_id_closed_set (construct_id : string) :
  exists s, BedrockKendraGoogleDriveStack construct_id = Some s /\
    let query := invoke_bedrock_lambda construct_id in
    let four := [ "anthropic.claude-instant-v1";
                  "anthropic.claude-3-sonnet-20240229-v1:0";
                  "anthropic.claude-3-haiku-20240307-v1:0";
                  "anthropic.claude-v2" ] in
    find_parameter s "ModelId" = Some model_id_param
    /\ param_default model_id_param = Some "anthropic.claude-instant-v1"
    /\ allowed_values model_id_param = four
    /\ (forall v, param_accepts model_id_param v = true <-> v ∈ four)
    /\ find_function s "InvokeBedrockLambda" = Some query
    /\ granted_resources "bedrock:InvokeModel" (role query)
       = [fstr [lit "arn:aws:bedrock:"; region; lit "::foundation-model/";
                value_as_string model_id_param]]
    /\ (forall arn,
          bind_parameters (parameters s) {[ "GoogleDriveSecretArn" := arn ]}
          = Some (<["ModelId" := "anthropic.claude-instant-v1"]>
                    (<["KendraEdition" := "DEVELOPER_EDITION"]>
                       (<["GoogleDriveSecretArn" := arn]> ∅))))
    /\ (forall inputs params rgn attrs,
          bind_parameters (parameters s) inputs = Some params ->
          exists m,
            params !! "ModelId" = Some m
            /\ m ∈ four
            /\ resolve {| env_region := rgn; env_params := params; env_attrs := attrs |}
                 <$> granted_resources "bedrock:InvokeModel" (role query)
               = ["arn:aws:bedrock:" +:+ rgn +:+ "::foundation-model/" +:+ m]
            /\ resolve {| env_region := rgn; env_params := params; env_attrs := attrs |}
                 <$> allowed_resources s (role query) "bedrock:InvokeModel"
               = ["arn:aws:bedrock:" +:+ rgn +:+ "::foundation-model/" +:+ m])
    /\ forallb (fun m => negb (has_wildcard m)) four = true
    /\ effective_statements s (role query)
       = role_statements (role query) ++ [xray_statement]
    /\ effective_actions s (role query)
       = ["bedrock:InvokeModel"; "kendra:Retrieve";
          "xray:PutTraceSegments"; "xray:PutTelemetryRecords"]
    /\ forallb (fun a => negb (has_wildcard a)) (effective_actions s (role query))
       = true
    /\ List.filter (fun a => bool_decide (service_of a = "bedrock"))
         (effective_actions s (role query))
       = ["bedrock:InvokeModel"]
    /\ (forall a, a ∈ effective_actions s (role query) ->
          action_matches a "bedrock:InvokeModel" = true ->
          a = "bedrock:InvokeModel")
    /\ allowed_resources s (role query) "bedrock:InvokeModel"
       = [fstr [lit "arn:aws:bedrock:"; region; lit "::foundation-model/";
                value_as_string model_id_param]]
    /\ managed_policies (role query) = ["CloudWatchLogsFullAccess"].
Proof.
  synth construct_id. conjuncts.
  - reflexivity.
  - reflexivity.
  - reflexivity.
  - apply model_id_accepts.
  - reflexivity.
  - reflexivity.
  - reflexivity.
  - intros inputs params rgn attrs H.
    destruct (bind_parameters_model_id _ _ _ H) as (m & Hm & Hin).
    exists m. split; [exact Hm |]. split; [exact Hin |].
    assert (resolve {| env_region := rgn; env_params := params; env_attrs := attrs |}
              <$> [[FLit "arn:aws:bedrock:"; FRef "AWS::Region";
                    FLit "::foundation-model/"; FRef "ModelId"]]
            = ["arn:aws:bedrock:" +:+ rgn +:+ "::foundation-model/" +:+ m]) as Hres.
    { cbn [fmap list_fmap]. rewrite !resolve_cons.
      cbn [resolve resolve_fragment foldr env_region env_params].
      rewrite Hm. cbn [default]. rewrite string_app_nil_r.
      reflexivity. }
    split; [exact Hres |].
    change (allowed_resources (synthesized construct_id)
              (role (invoke_bedrock_lambda construct_id)) "bedrock:InvokeModel")
      with [[FLit "arn:aws:bedrock:"; FRef "AWS::Region";
             FLit "::foundation-model/"; FRef "ModelId"]].
    exact Hres.
  - reflexivity.
  - reflexivity.
  - reflexivity.
  - reflexivity.
  - reflexivity.
  - intros a Ha Hm.
    change (effective_actions (synthesized construct_id)
              (role (invoke_bedrock_lambda construct_id)))
      with ["bedrock:InvokeModel"; "kendra:Retrieve";
            "xray:PutTraceSegments"; "xray:PutTelemetryRecords"] in Ha.
    elem_cases Ha; first [reflexivity | discriminate Hm].
  - vm_compute. reflexivity.
  - reflexivity.
Qed.

(** *** Creation order *)

(** C9: in every synthesized stack the data source's index id is the id of
    the stack's one index and the data source has an explicit dependency on
    that index; a creation order that respects the stack's dependencies exists
    (the declaration order is one), and every such order creates the index
    before the data source. *)
Theorem C9_data_source_after_index (construct_id : string) :
  exists s, BedrockKendraGoogleDriveStack construct_id = Some s /\
    let ix := kendra_index construct_id in
    let ds := kendra_ds construct_id in
    indexes s = [ix]
    /\ data_sources s = [ds]
    /\ index_id ds = ix_attr_id ix
    /\ (ds_id ds, ix_id ix) ∈ node_dependencies s
    /\ valid_creation_order s (construct_id_of <$> children s) = true
    /\ (forall order,
          valid_creation_order s order = true ->
          created_before order (ix_id ix) (ds_id ds) = true).
Proof.
  synth construct_id. conjuncts.
  - reflexivity.
  - reflexivity.
  - reflexivity.
  - elem_here.
  - vm_compute. reflexivity.
  - intros order H. unfold valid_creation_order in H.
    apply andb_prop in H as [_ H].
    rewrite forallb_forall in H.
    specialize (H ("KendraDS", "KendraIndex")).
    cbn [fst snd] in H.
    change (has_child (synthesized construct_id) "KendraIndex") with true in H.
    apply H. unfold dependency_edges. apply in_or_app. left. cbn. auto.
Qed.

(** ** The Sync Orchestrator: at most one active job per pair *)

Section SyncOrchestratorFacts.

Import SyncOrchestrator.

Lemma find_none_filter {A} (p : A -> bool) (l : list A) :
  find p l = None -> List.filter p l = [].
Proof.
  induction l as [| x l IH]; [reflexivity |].
  cbn. destruct (p x); [discriminate | exact IH].
Qed.

Lemma find_unique {A} (p : A -> bool) (l : list A) (x : A) :
  length (List.filter p l) <= 1 -> In x l -> p x = true -> find p l = Some x.
Proof.
  induction l as [| y l IH]; intros Hlen Hin Hp; [destruct Hin |].
  cbn in Hlen |- *. destruct (p y) eqn:Hy.
  - destruct Hin as [-> | Hin]; [reflexivity |].
    cbn in Hlen.
    assert (In x (List.filter p l)) as Hx by (apply filter_In; auto).
    destruct (List.filter p l); [destruct Hx | cbn in Hlen; lia].
  - destruct Hin as [-> | Hin]; [congruence |].
    apply IH; assumption.
Qed.

Lemma filter_map_shrink {A} (p : A -> bool) (f : A -> A) (l : list A) :
  (forall x, p (f x) = true -> p x = true) ->
  length (List.filter p (map f l)) <= length (List.filter p l).
Proof.
  intros Hpf. induction l as [| x l IH]; [reflexivity |].
  cbn. destruct (p (f x)) eqn:Hfx.
  - rewrite (Hpf x Hfx). cbn. lia.
  - destruct (p x); cbn; lia.
Qed.

Lemma observe_active (job_id : string) (observed : SyncJobState)
    (idx ds : string) (j : SyncJob) :
  is_active_for idx ds (observe job_id observed j) = true ->
  is_active_for idx ds j = true.
Proof.
  unfold observe, is_active_for.
  destruct (bool_decide (jobId j = job_id) && active (state j)) eqn:Hupd;
    [| done].
  apply andb_prop in Hupd as [_ Hact]. cbn [indexId dataSourceId state].
  intros H. apply andb_prop in H as [H _]. rewrite H, Hact. reflexivity.
Qed.

Lemma is_active_for_pair (idx ds idx' ds' job_id : string) (st : SyncJobState) :
  is_active_for idx' ds'
    {| indexId := idx; dataSourceId := ds; jobId := job_id; state := st |} = true ->
  idx = idx' /\ ds = ds'.
Proof.
  unfold is_active_for. cbn. intros H.
  apply andb_prop in H as [H _]. apply andb_prop in H as [H1 H2].
  split; [exact (bool_decide_eq_true_1 _ H1) | exact (bool_decide_eq_true_1 _ H2)].
Qed.

Lemma step_invariant (o : Orchestrator) (op : Op) :
  at_most_one_active o -> at_most_one_active (step o op).
Proof.
  intros Hinv idx' ds'.
  destruct op as [idx ds reply | job_id reply | job_id observed].
  - cbn [step]. unfold RequestSync.
    destruct (active_job o idx ds) as [j |] eqn:Hfind; [apply Hinv |].
    destruct reply as [job_id | e]; [| apply Hinv].
    unfold active_count. cbn [snd jobs List.filter].
    destruct (is_active_for idx' ds' _) eqn:Hnew; [| apply Hinv].
    apply is_active_for_pair in Hnew as [<- <-].
    unfold active_job in Hfind. rewrite (find_none_filter _ _ Hfind).
    cbn. lia.
  - cbn [step]. unfold StopSync. destruct (finished o job_id); apply Hinv.
  - cbn [step GetStatus snd]. unfold active_count. cbn [jobs].
    etransitivity; [| apply (Hinv idx' ds')].
    apply filter_map_shrink. intros j. apply observe_active.
Qed.

Lemma run_invariant (ops : list Op) (o : Orchestrator) :
  at_most_one_active o -> at_most_one_active (run o ops).
Proof.
  revert o. induction ops as [| op ops IH]; intros o Hinv; [exact Hinv |].
  cbn. apply IH. by apply step_invariant.
Qed.

Lemma initial_invariant : at_most_one_active initial.
Proof. intros idx ds. cbn. lia. Qed.

Lemma request_existing (o : Orchestrator) (idx ds : string) (reply : StartReply)
    (j : SyncJob) :
  active_job o idx ds = Some j -> RequestSync idx ds reply o = (inl j, o).
Proof. intros H. unfold RequestSync. by rewrite H. Qed.

Lemma running_is_found (o : Orchestrator) (j : SyncJob) :
  at_most_one_active o -> j ∈ jobs o -> state j = Running ->
  active_job o (indexId j) (dataSourceId j) = Some j.
Proof.
  intros Hinv Hin Hrun. unfold active_job. apply find_unique.
  - apply Hinv.
  - by apply list_elem_of_In.
  - unfold is_active_for. rewrite Hrun.
    by rewrite !bool_decide_eq_true_2.
Qed.

(** Requests issued while a job of the pair is active leave that job and
    the number of start-sync calls for the pair as they are. *)
Lemma requests_while_active (ops : list Op) (o : Orchestrator)
    (idx ds : string) (j : SyncJob) :
  forallb is_request ops = true ->
  active_job o idx ds = Some j ->
  active_job (run o ops) idx ds = Some j
  /\ calls_for idx ds (run o ops) = calls_for idx ds o.
Proof.
  revert o. induction ops as [| op ops IH]; intros o Hreq Hact; [done |].
  cbn in Hreq. apply andb_prop in Hreq as [Hop Hreq].
  destruct op as [idx' ds' reply | |]; try discriminate Hop.
  cbn [run foldl step]. fold (run (RequestSync idx' ds' reply o).2 ops).
  assert (active_job (RequestSync idx' ds' reply o).2 idx ds = Some j
          /\ calls_for idx ds (RequestSync idx' ds' reply o).2
             = calls_for idx ds o) as [Hact' Hcalls].
  { unfold RequestSync.
    destruct (active_job o idx' ds') as [j' |] eqn:Hother; [done |].
    assert ((idx', ds') <> (idx, ds)) as Hne by congruence.
    destruct reply as [job_id | e]; cbn [snd]; split.
    - unfold active_job. cbn [jobs find].
      destruct (is_active_for idx ds _) eqn:Hnew; [| exact Hact].
      apply is_active_for_pair in Hnew as [-> ->]. congruence.
    - unfold calls_for. cbn [start_calls List.filter].
      by rewrite bool_decide_eq_false_2.
    - exact Hact.
    - unfold calls_for. cbn [start_calls List.filter].
      by rewrite bool_decide_eq_false_2. }
  destruct (IH _ Hreq Hact') as [H1 H2]. split; [exact H1 | congruence].
Qed.

(** Stopping a job that has succeeded is a no-op success. *)
Lemma stop_finished_noop (o : Orchestrator) (j : SyncJob) (reply : option Error) :
  find_job o (jobId j) = Some j -> state j = Succeeded ->
  StopSync (jobId j) reply o = (None, o).
Proof.
  intros Hfind Hst. unfold StopSync, finished. by rewrite Hfind, Hst.
Qed.

End SyncOrchestratorFacts.

Example sync_requested_twice :
  let ops := [SyncOrchestrator.OpRequestSync "index" "drive" (SyncOrchestrator.Started "job-1");
              SyncOrchestrator.OpRequestSync "index" "drive" (SyncOrchestrator.Started "job-2")] in
  let o := SyncOrchestrator.run SyncOrchestrator.initial ops in
  SyncOrchestrator.calls_for "index" "drive" o = 1
  /\ SyncOrchestrator.jobId <$> SyncOrchestrator.jobs o = ["job-1"].
Proof. split; reflexivity. Qed.

(** C6: at any time at most one job is active for each (indexId,
    dataSourceId) pair; a RequestSync issued while a job of the pair is
    Running returns that job unchanged and leaves the orchestrator as it was;
    and when a request starts a job, any number of concurrent requests that
    follow while it is Running add no start-sync call: the external service
    was called exactly once for the pair. *)
Theorem C6_at_most_one_active_sync_job :
  (forall ops,
     SyncOrchestrator.at_most_one_active
       (SyncOrchestrator.run SyncOrchestrator.initial ops))
  /\ (forall ops j reply,
        let o := SyncOrchestrator.run SyncOrchestrator.initial ops in
        j ∈ SyncOrchestrator.jobs o ->
        SyncOrchestrator.state j = SyncOrchestrator.Running ->
        SyncOrchestrator.RequestSync
          (SyncOrchestrator.indexId j) (SyncOrchestrator.dataSourceId j) reply o
        = (inl j, o))
  /\ (forall ops idx ds job_id concurrent,
        let o := SyncOrchestrator.run SyncOrchestrator.initial ops in
        let j := {| SyncOrchestrator.indexId := idx;
                    SyncOrchestrator.dataSourceId := ds;
                    SyncOrchestrator.jobId := job_id;
                    SyncOrchestrator.state := SyncOrchestrator.Running |} in
        let started :=
          (SyncOrchestrator.RequestSync idx ds (SyncOrchestrator.Started job_id) o).2 in
        SyncOrchestrator.active_job o idx ds = None ->
        forallb SyncOrchestrator.is_request concurrent = true ->
        (SyncOrchestrator.RequestSync idx ds (SyncOrchestrator.Started job_id) o).1
        = inl j
        /\ SyncOrchestrator.active_job
             (SyncOrchestrator.run started concurrent) idx ds = Some j
        /\ SyncOrchestrator.calls_for idx ds
             (SyncOrchestrator.run started concurrent)
           = S (SyncOrchestrator.calls_for idx ds o)).
Proof.
  split; [| split].
  - intros ops. apply run_invariant, initial_invariant.
  - intros ops j reply o Hin Hrun. apply request_existing.
    apply running_is_found; [apply run_invariant, initial_invariant | done..].
  - intros ops idx ds job_id concurrent o j started Hnone Hreq.
    assert (SyncOrchestrator.RequestSync idx ds (SyncOrchestrator.Started job_id) o
            = (inl j, {| SyncOrchestrator.jobs := j :: SyncOrchestrator.jobs o;
                         SyncOrchestrator.start_calls :=
                           (idx, ds) :: SyncOrchestrator.start_calls o;
                         SyncOrchestrator.stop_calls :=
                           SyncOrchestrator.stop_calls o |})) as Hstart.
    { unfold SyncOrchestrator.RequestSync. by rewrite Hnone. }
    subst started. rewrite Hstart. cbn [fst snd]. split; [reflexivity |].
    destruct (requests_while_active concurrent
                {| SyncOrchestrator.jobs := j :: SyncOrchestrator.jobs o;
                   SyncOrchestrator.start_calls :=
                     (idx, ds) :: SyncOrchestrator.start_calls o;
                   SyncOrchestrator.stop_calls := SyncOrchestrator.stop_calls o |}
                idx ds j Hreq) as [Hact Hcalls].
    { unfold SyncOrchestrator.active_job, SyncOrchestrator.is_active_for.
      subst j. cbn. by rewrite !bool_decide_eq_true_2. }
    split; [exact Hact |]. rewrite Hcalls.
    unfold SyncOrchestrator.calls_for. cbn.
    by rewrite bool_decide_eq_true_2.
Qed.

(** ** The Query Service: an empty retrieval is not a failure *)

Section QueryServiceFacts.

Import QueryService.

Variable cfg : Config.
Variable svc : Services.

Lemma fit_nil (query : string) : fit cfg query [] = [].
Proof. unfold fit. cbn. by destruct (fits cfg query []). Qed.

Lemma cite_nil (t : string) : cite cfg t [] = [].
Proof. reflexivity. Qed.

Lemma build_prompt_nil (query : string) :
  build_prompt cfg query [] = instructions cfg +:+ query.
Proof. reflexivity. Qed.

(** The generation call returns the first text the model gives, provided
    every earlier attempt was throttled and the attempt is within the cap. *)
Lemma generate_succeeds (prompt t : string) (n : nat) :
  forall attempts_left first,
    n < attempts_left ->
    (forall i, i < n -> invoke svc (cfg_modelId cfg) prompt (first + i) = Throttled) ->
    invoke svc (cfg_modelId cfg) prompt (first + n) = Text t ->
    generate cfg svc prompt attempts_left first = Some t.
Proof.
  induction n as [| n IH]; intros attempts_left first Hlt Hthr Htext;
    (destruct attempts_left as [| remaining]; [lia |]); cbn [generate].
  - rewrite Nat.add_0_r in Htext. by rewrite Htext.
  - pose proof (Hthr 0 ltac:(lia)) as H0. rewrite Nat.add_0_r in H0.
    rewrite H0. apply IH; [lia | |].
    + intros i Hi. replace (S first + i) with (first + S i) by lia.
      apply Hthr. lia.
    + by replace (S first + n) with (first + S n) by lia.
Qed.

(** With no passage the outcome of [Answer] is the outcome of the generation
    attempt on the prompt without context; it is never [RetrievalFailed]. *)
Lemma answer_without_passages (query : string) :
  query <> "" ->
  retrieve svc (cfg_indexId cfg) query (K cfg) = Passages [] ->
  Answer cfg svc query
  = match generate cfg svc (instructions cfg +:+ query) (max_attempts cfg) 0 with
    | Some t => inl {| answer := t; citations := []; grounded := false |}
    | None => inr GenerationFailed
    end.
Proof.
  intros Hq Hret. unfold Answer.
  rewrite bool_decide_eq_false_2 by exact Hq.
  rewrite Hret. cbv zeta. rewrite fit_nil, build_prompt_nil.
  by destruct (generate cfg svc _ _ _).
Qed.

End QueryServiceFacts.




(** ** The stack as a whole *)

(** *** Parameters of a deployment *)

Lemma bind_parameters_char (construct_id : string)
    (inputs params : gmap string string) :
  bind_parameters (parameters (synthesized construct_id)) inputs = Some params
  <-> exists arn,
        inputs !! "GoogleDriveSecretArn" = Some arn
        /\ default "anthropic.claude-instant-v1" (inputs !! "ModelId")
           ∈ allowed_values model_id_param
        /\ default "DEVELOPER_EDITION" (inputs !! "KendraEdition")
           ∈ allowed_values kendra_edition_param
        /\ params
           = <["ModelId" :=
                 default "anthropic.claude-instant-v1" (inputs !! "ModelId")]>
               (<["KendraEdition" :=
                    default "DEVELOPER_EDITION" (inputs !! "KendraEdition")]>
                  (<["GoogleDriveSecretArn" := arn]> ∅)).
Proof.
  change (parameters (synthesized construct_id))
    with [model_id_param; kendra_edition_param; google_drive_secret_arn_param].
  cbn [bind_parameters]. unfold param_value, param_accepts.
  cbn [param_id param_default allowed_values model_id_param
       kendra_edition_param google_drive_secret_arn_param].
  set (m := inputs !! "ModelId"). set (k := inputs !! "KendraEdition").
  set (g := inputs !! "GoogleDriveSecretArn").
  assert (match m with Some v => Some v | None => Some "anthropic.claude-instant-v1" end
          = Some (default "anthropic.claude-instant-v1" m)) as -> by by destruct m.
  assert (match k with Some v => Some v | None => Some "DEVELOPER_EDITION" end
          = Some (default "DEVELOPER_EDITION" k)) as -> by by destruct k.
  assert (match g with Some v => Some v | None => None end = g) as ->
    by by destruct g.
  split.
  - intros H. repeat case_bool_decide; try discriminate H.
    destruct g as [arn |]; [| discriminate H].
    injection H as <-. exists arn. done.
  - intros (arn & Hg & Hm & Hk & ->).
    rewrite !bool_decide_eq_true_2 by assumption.
    by rewrite Hg.
Qed.


Lemma synth_inv (construct_id : string) (s : Stack) :
  BedrockKendraGoogleDriveStack construct_id = Some s ->
  s = synthesized construct_id.
Proof. rewrite synth_eq. congruence. Qed.

Lemma demo_deployment_accepted (construct_id : string) :
  bind_parameters (parameters (synthesized construct_id)) demo_inputs
  = Some demo_params.
Proof.
  apply bind_parameters_char. exists demo_secret. unfold demo_inputs.
  rewrite lookup_singleton_eq, !lookup_singleton_ne by discriminate.
  cbn [default]. repeat split; elem_here.
Qed.

Lemma resolve_param (rgn : string) (params : gmap string string)
    (attrs : string -> string -> string) (p : CfnParameter) (v : string) :
  param_id p <> "AWS::Region" ->
  params !! param_id p = Some v ->
  resolve (deployment rgn params attrs) (value_as_string p) = v.
Proof.
  intros Hne Hv. unfold value_as_string. rewrite resolve_singleton.
  cbn [resolve_fragment deployment env_params].
  rewrite bool_decide_eq_false_2 by exact Hne. by rewrite Hv.
Qed.

(** X4: in every accepted deployment of a synthesized stack the edition the
    Kendra index is created with is the KendraEdition the deployment selects,
    DEVELOPER_EDITION when it selects none, and so one of the two allowed
    editions; the index runs under the stack's Kendra index role. *)
Theorem X4_index_edition (construct_id : string) (s : Stack)
    (inputs params : gmap string string) (rgn : string)
    (attrs : string -> string -> string) (ix : CfnIndex) :
  BedrockKendraGoogleDriveStack construct_id = Some s ->
  bind_parameters (parameters s) inputs = Some params ->
  ix ∈ indexes s ->
  resolve (deployment rgn params attrs) (ix_edition ix)
  = default "DEVELOPER_EDITION" (inputs !! "KendraEdition")
  /\ resolve (deployment rgn params attrs) (ix_edition ix)
     ∈ ["DEVELOPER_EDITION"; "ENTERPRISE_EDITION"]
  /\ find_role s "KendraIndexRole" = Some (kendra_index_role construct_id)
  /\ ix_role_arn ix = role_arn (kendra_index_role construct_id).
Proof.
  intros Hs Hbind Hix. apply synth_inv in Hs as ->.
  rewrite synth_indexes in Hix. apply list_elem_of_singleton in Hix as ->.
  apply bind_parameters_char in Hbind as (arn & _ & _ & Hk & Hparams).
  assert (resolve (deployment rgn params attrs)
            (ix_edition (kendra_index construct_id))
          = default "DEVELOPER_EDITION" (inputs !! "KendraEdition")) as Hres.
  { apply (resolve_param _ _ _ kendra_edition_param); [discriminate |].
    rewrite Hparams. cbn [param_id kendra_edition_param].
    rewrite lookup_insert_ne by discriminate. apply lookup_insert_eq. }
  split; [exact Hres |]. split; [rewrite Hres; exact Hk |].
  split; reflexivity.
Qed.

Lemma X4_index_edition_witness :
  app = Some (synthesized "BedrockKendraGoogleDriveStack")
  /\ resolve (deployment "us-east-1" demo_params (fun _ _ => ""))
       (ix_edition (kendra_index "BedrockKendraGoogleDriveStack"))
     = "DEVELOPER_EDITION".
Proof.
  split; [apply synth_eq |].
  exact (proj1 (X4_index_edition "BedrockKendraGoogleDriveStack"
                  (synthesized "BedrockKendraGoogleDriveStack")
                  demo_inputs demo_params "us-east-1" (fun _ _ => "")
                  (kendra_index "BedrockKendraGoogleDriveStack")
                  (synth_eq _) (demo_deployment_accepted _)
                  (list_elem_of_here _ _))).
Defined.

(** X5: in every accepted deployment of a synthesized stack the secret the
    Google Drive data source is configured with and the one resource on which
    the data source's role may call secretsmanager:GetSecretValue are the
    same string, the GoogleDriveSecretArn the deployment supplies. *)
Theorem X5_secret_flow (construct_id : string) (s : Stack)
    (inputs params : gmap string string) (rgn : string)
    (attrs : string -> string -> string) (ds : CfnDataSource) (r : Role) :
  BedrockKendraGoogleDriveStack construct_id = Some s ->
  bind_parameters (parameters s) inputs = Some params ->
  ds ∈ data_sources s ->
  r ∈ roles s ->
  role_arn r = ds_role_arn ds ->
  exists arn,
    inputs !! "GoogleDriveSecretArn" = Some arn
    /\ (resolve (deployment rgn params attrs) ∘ secret_arn)
         <$> google_drive_configuration (data_source_configuration ds)
       = Some arn
    /\ resolve (deployment rgn params attrs)
         <$> granted_resources "secretsmanager:GetSecretValue" r
       = [arn].
Proof.
  intros Hs Hbind Hds Hr Harn. apply synth_inv in Hs as ->.
  rewrite synth_data_sources in Hds. apply list_elem_of_singleton in Hds as ->.
  rewrite synth_roles in Hr.
  assert (r = kendra_ds_role construct_id) as ->
    by (elem_cases Hr; first [reflexivity | discriminate Harn]).
  apply bind_parameters_char in Hbind as (arn & Hin & _ & _ & Hparams).
  exists arn. split; [exact Hin |].
  assert (resolve (deployment rgn params attrs)
            (value_as_string google_drive_secret_arn_param)
          = arn) as Hres.
  { apply resolve_param; [discriminate |].
    rewrite Hparams. cbn [param_id google_drive_secret_arn_param].
    rewrite !lookup_insert_ne by discriminate. apply lookup_insert_eq. }
  split.
  - change (Some (resolve (deployment rgn params attrs)
                    (value_as_string google_drive_secret_arn_param))
            = Some arn). by rewrite Hres.
  - change ([resolve (deployment rgn params attrs)
               (value_as_string google_drive_secret_arn_param)] = [arn]).
    by rewrite Hres.
Qed.

Lemma X5_secret_flow_witness :
  app = Some (synthesized "BedrockKendraGoogleDriveStack")
  /\ exists arn,
       demo_inputs !! "GoogleDriveSecretArn" = Some arn
       /\ resolve (deployment "us-east-1" demo_params (fun _ _ => ""))
            <$> granted_resources "secretsmanager:GetSecretValue"
                  (kendra_ds_role "BedrockKendraGoogleDriveStack")
          = [arn].
Proof.
  split; [apply synth_eq |].
  destruct (X5_secret_flow "BedrockKendraGoogleDriveStack"
              (synthesized "BedrockKendraGoogleDriveStack")
              demo_inputs demo_params "us-east-1" (fun _ _ => "")
              (kendra_ds "BedrockKendraGoogleDriveStack")
              (kendra_ds_role "BedrockKendraGoogleDriveStack")
              (synth_eq _) (demo_deployment_accepted _)
              (list_elem_of_here _ _)
              (list_elem_of_further _ _ _ (list_elem_of_here _ _))
              eq_refl) as (arn & H1 & _ & H3).
  exists arn. split; [exact H1 | exact H3].
Defined.

(** *** Permissions on the index *)

(** X6: in every synthesized stack the data source runs under the Kendra
    data-source role, whose inline policies allow exactly
    kendra:BatchPutDocument, kendra:BatchDeleteDocument and
    secretsmanager:GetSecretValue; the two document actions are allowed on one
    resource, which in every deployment is the ARN of the stack's own index,
    the index the data source is attached to.  The Kendra index role has no
    inline policy at all. *)
Theorem X6_ingestion_scope (construct_id : string) :
  exists s, BedrockKendraGoogleDriveStack construct_id = Some s /\
    let ds := kendra_ds construct_id in
    let ds_role := kendra_ds_role construct_id in
    let ix := kendra_index construct_id in
    data_sources s = [ds]
    /\ indexes s = [ix]
    /\ find_role s "KendraDSRole" = Some ds_role
    /\ ds_role_arn ds = role_arn ds_role
    /\ index_id ds = ix_attr_id ix
    /\ ds_type ds = "GOOGLEDRIVE"
    /\ role_actions ds_role
       = ["kendra:BatchPutDocument"; "kendra:BatchDeleteDocument";
          "secretsmanager:GetSecretValue"]
    /\ (forall e a,
          a ∈ ["kendra:BatchPutDocument"; "kendra:BatchDeleteDocument"] ->
          resolve e <$> granted_resources a ds_role
          = [env_attrs e (ix_id ix) "Arn"])
    /\ find_role s "KendraIndexRole" = Some (kendra_index_role construct_id)
    /\ role_statements (kendra_index_role construct_id) = [].
Proof.
  synth construct_id. conjuncts; try reflexivity.
  intros e a Ha. elem_cases Ha.
  - change ([resolve e [FGetAtt "KendraIndex" "Arn"]]
            = [env_attrs e "KendraIndex" "Arn"]).
    by rewrite resolve_singleton.
  - change ([resolve e [FGetAtt "KendraIndex" "Arn"]]
            = [env_attrs e "KendraIndex" "Arn"]).
    by rewrite resolve_singleton.
Qed.

(** X7: in every synthesized stack the sync function's role allows its two
    actions on the same two resources and no other: in every deployment, the
    ARN of the stack's index and that ARN followed by [/*]. *)
Theorem X7_sync_scope (construct_id : string) :
  exists s, BedrockKendraGoogleDriveStack construct_id = Some s /\
    let sync := data_source_sync_lambda construct_id in
    let ix := kendra_index construct_id in
    find_function s "DataSourceSyncLambda" = Some sync
    /\ indexes s = [ix]
    /\ flat_map resources (role_statements (role sync))
       = [ix_attr_arn ix; fstr [ix_attr_arn ix; lit "/*"]]
    /\ (forall e a,
          a ∈ role_actions (role sync) ->
          resolve e <$> granted_resources a (role sync)
          = [env_attrs e (ix_id ix) "Arn";
             env_attrs e (ix_id ix) "Arn" +:+ "/*"]).
Proof.
  synth construct_id. conjuncts; try reflexivity.
  intros e a Ha. cbn in Ha.
  assert (resolve e <$> [[FGetAtt "KendraIndex" "Arn"];
                         [FGetAtt "KendraIndex" "Arn"; FLit "/*"]]
          = [env_attrs e "KendraIndex" "Arn";
             env_attrs e "KendraIndex" "Arn" +:+ "/*"]) as Hres.
  { cbn [fmap list_fmap].
    rewrite (resolve_cons e (FGetAtt "KendraIndex" "Arn") [FLit "/*"]).
    rewrite !resolve_singleton. reflexivity. }
  elem_cases Ha; exact Hres.
Qed.

Lemma synth_effective_statements (construct_id : string) :
  effective_statements (synthesized construct_id) (kendra_index_role construct_id)
  = role_statements (kendra_index_role construct_id)
  /\ effective_statements (synthesized construct_id) (kendra_ds_role construct_id)
     = role_statements (kendra_ds_role construct_id)
  /\ effective_statements (synthesized construct_id)
       (data_source_sync_lambda_role construct_id)
     = role_statements (data_source_sync_lambda_role construct_id)
  /\ effective_statements (synthesized construct_id)
       (invoke_bedrock_lambda_role construct_id)
     = role_statements (invoke_bedrock_lambda_role construct_id) ++ [xray_statement].
Proof. repeat split; reflexivity. Qed.

(** X8: among all the statements the stack gives the four roles the
    constructor creates (their inline policies and what tracing adds), no
    action name has a wildcard, and every resource is anchored on a construct
    of the stack (an attribute of the index or a parameter), with one
    exception: the statement that [tracing=ACTIVE] adds to the query
    function's role allows its two X-Ray actions on all resources. *)
Theorem X8_no_open_statement (construct_id : string) :
  exists s, BedrockKendraGoogleDriveStack construct_id = Some s /\
    (forall r st,
       r ∈ roles s -> st ∈ effective_statements s r ->
       actions st <> []
       /\ resources st <> []
       /\ (forall a, a ∈ actions st -> has_wildcard a = false)
       /\ ((forall res, res ∈ resources st ->
              exists id, id ∈ token_refs res /\ has_child s id = true)
           \/ (r = invoke_bedrock_lambda_role construct_id
               /\ st = xray_statement)))
    /\ xray_statement
       ∈ effective_statements s (invoke_bedrock_lambda_role construct_id)
    /\ resources xray_statement = [lit "*"]
    /\ (forall r, r ∈ roles s -> r <> invoke_bedrock_lambda_role construct_id ->
          effective_statements s r = role_statements r).
Proof.
  synth construct_id.
  destruct (synth_effective_statements construct_id) as (E1 & E2 & E3 & E4).
  conjuncts.
  - intros r st Hr Hst. rewrite synth_roles in Hr.
    elem_cases Hr;
      [rewrite E1 in Hst | rewrite E2 in Hst | rewrite E3 in Hst | rewrite E4 in Hst];
      cbn in Hst; elem_cases Hst;
      (split; [discriminate |]; split; [discriminate |]; split;
       [ intros a Ha; cbn in Ha; elem_cases Ha; reflexivity
       | first
           [ solve [right; split; reflexivity]
           | left; intros res Hres; cbn in Hres; elem_cases Hres;
             first
               [ solve [exists "KendraIndex"; split;
                        [cbn; elem_here | reflexivity]]
               | solve [exists "GoogleDriveSecretArn"; split;
                        [cbn; elem_here | reflexivity]]
               | solve [exists "ModelId"; split;
                        [cbn; elem_here | reflexivity]] ] ] ]).
  - rewrite E4. cbn. elem_here.
  - reflexivity.
  - intros r Hr Hne. rewrite synth_roles in Hr.
    elem_cases Hr; [exact E1 | exact E2 | exact E3 | by destruct Hne].
Qed.


(** *** Names and the construct id *)

Lemma list_ascii_app (a b : string) :
  list_ascii_of_string (a +:+ b)
  = list_ascii_of_string a ++ list_ascii_of_string b.
Proof.
  induction a as [| c a IH]; [reflexivity |].
  change (c :: list_ascii_of_string (a +:+ b)
          = c :: (list_ascii_of_string a ++ list_ascii_of_string b)).
  by rewrite IH.
Qed.

Lemma list_ascii_inj (a b : string) :
  list_ascii_of_string a = list_ascii_of_string b -> a = b.
Proof.
  intros H. rewrite <- (string_of_list_ascii_of_string a),
              <- (string_of_list_ascii_of_string b). by rewrite H.
Qed.

Lemma string_app_inj_l (a b suffix : string) :
  a +:+ suffix = b +:+ suffix -> a = b.
Proof.
  intros H. apply list_ascii_inj.
  apply (f_equal list_ascii_of_string) in H. rewrite !list_ascii_app in H.
  by apply app_inv_tail in H.
Qed.

Lemma app_suffix_drop {A} (a b s t : list A) :
  a ++ s = b ++ t -> length s <= length t ->
  s = drop (length t - length s) t.
Proof.
  intros H Hlen.
  rewrite <- (take_drop (length t - length s) t) in H at 1.
  rewrite app_assoc in H.
  apply app_inj_2 in H as [_ H]; [exact H |].
  rewrite length_drop. lia.
Qed.

Lemma role_suffixes_differ (a b : string) :
  a +:+ "-KendraIndexRole" <> b +:+ "-GoogleDriveDSRole".
Proof.
  intros H. apply (f_equal list_ascii_of_string) in H.
  rewrite !list_ascii_app in H.
  apply app_suffix_drop in H; [discriminate H | cbn; lia].
Qed.

(** X10: the names the constructor fixes (two role names, the index name, the
    data-source name) are the construct id followed by a fixed suffix; the two
    role names of a stack differ, and two stacks synthesized under different
    construct ids share no role name, no index name and no data-source
    name. *)
Theorem X10_names_do_not_collide (c1 c2 : string) (s1 s2 : Stack) :
  c1 <> c2 ->
  BedrockKendraGoogleDriveStack c1 = Some s1 ->
  BedrockKendraGoogleDriveStack c2 = Some s2 ->
  role_names s1 = [c1 +:+ "-KendraIndexRole"; c1 +:+ "-GoogleDriveDSRole"]
  /\ NoDup (role_names s1)
  /\ (forall n, n ∈ role_names s1 -> n ∉ role_names s2)
  /\ (forall n, n ∈ ix_name <$> indexes s1 -> n ∉ ix_name <$> indexes s2)
  /\ (forall n, n ∈ ds_name <$> data_sources s1 ->
        n ∉ ds_name <$> data_sources s2).
Proof.
  intros Hne H1 H2. apply synth_inv in H1 as ->. apply synth_inv in H2 as ->.
  change (role_names (synthesized c1))
    with [c1 +:+ "-KendraIndexRole"; c1 +:+ "-GoogleDriveDSRole"].
  change (role_names (synthesized c2))
    with [c2 +:+ "-KendraIndexRole"; c2 +:+ "-GoogleDriveDSRole"].
  change (ix_name <$> indexes (synthesized c1)) with [c1 +:+ "-KendraIndex"].
  change (ix_name <$> indexes (synthesized c2)) with [c2 +:+ "-KendraIndex"].
  change (ds_name <$> data_sources (synthesized c1))
    with [c1 +:+ "-KendraGoogleDriveDS"].
  change (ds_name <$> data_sources (synthesized c2))
    with [c2 +:+ "-KendraGoogleDriveDS"].
  split; [reflexivity |]. split; [| split; [| split]].
  - apply NoDup_cons. split; [| apply NoDup_singleton].
    intros H. apply list_elem_of_singleton in H.
    by apply role_suffixes_differ in H.
  - intros n Hn Hn'. elem_cases Hn; elem_cases Hn'.
    + by apply string_app_inj_l in Hn'.
    + by apply role_suffixes_differ in Hn'.
    + symmetry in Hn'. by apply role_suffixes_differ in Hn'.
    + by apply string_app_inj_l in Hn'.
  - intros n Hn Hn'. elem_cases Hn; elem_cases Hn'.
    by apply string_app_inj_l in Hn'.
  - intros n Hn Hn'. elem_cases Hn; elem_cases Hn'.
    by apply string_app_inj_l in Hn'.
Qed.

Lemma X10_names_witness :
  "StackA" <> "StackB"
  /\ BedrockKendraGoogleDriveStack "StackA" = Some (synthesized "StackA")
  /\ BedrockKendraGoogleDriveStack "StackB" = Some (synthesized "StackB")
  /\ role_names (synthesized "StackA")
     = ["StackA-KendraIndexRole"; "StackA-GoogleDriveDSRole"].
Proof.
  split; [discriminate |]. split; [apply synth_eq |]. split; [apply synth_eq |].
  exact (proj1 (X10_names_do_not_collide "StackA" "StackB"
                  (synthesized "StackA") (synthesized "StackB")
                  ltac:(discriminate) (synth_eq _) (synth_eq _))).
Defined.


(** *** What reaches whom *)


(** X13: in every synthesized stack and every deployment, the index id the
    stack exports as KendraIndexID is the INDEX_ID both functions receive, the
    id of the stack's one index; each of the five outputs is one attribute of
    a resource of the stack. *)
Theorem X13_exported_index_id (construct_id : string) :
  exists s, BedrockKendraGoogleDriveStack construct_id = Some s /\
    let sync := data_source_sync_lambda construct_id in
    let query := invoke_bedrock_lambda construct_id in
    let out := output_kendra_index_id construct_id in
    find_output s "KendraIndexID" = Some out
    /\ functions s = [sync; query]
    /\ (forall e,
          Some (resolve e (out_value out)) = resolve e <$> environment sync !! "INDEX_ID"
          /\ Some (resolve e (out_value out)) = resolve e <$> environment query !! "INDEX_ID"
          /\ resolve e (out_value out) = env_attrs e "KendraIndex" "Id")
    /\ length (outputs s) = 5
    /\ (forall o, o ∈ outputs s ->
          exists id attr,
            out_value o = [FGetAtt id attr]
            /\ has_child s id = true
            /\ id ∉ param_id <$> parameters s).
Proof.
  synth construct_id. conjuncts; try reflexivity.
  - intros e. split; [reflexivity |]. split; [reflexivity |].
    apply (resolve_singleton e (FGetAtt "KendraIndex" "Id")).
  - intros o Ho.
    change (outputs (synthesized construct_id))
      with [output_kendra_index_role_arn construct_id;
            output_kendra_index_id construct_id;
            output_kendra_google_drive_data_source_arn construct_id;
            output_data_source_sync_lambda_arn construct_id;
            output_invoke_bedrock_lambda_arn construct_id] in Ho.
    elem_cases Ho; do 2 eexists; (split; [reflexivity |]);
      (split; [reflexivity |]); intros Hin; cbn in Hin; elem_cases Hin;
      discriminate.
Qed.

(** *** The order of a deployment *)

Lemma created_before_trans (order : list string) (a b c : string) :
  created_before order a b = true -> created_before order b c = true ->
  created_before order a c = true.
Proof.
  unfold created_before.
  destruct (position a order) as [i |]; [| discriminate].
  destruct (position b order) as [j |]; [| discriminate].
  destruct (position c order) as [k |]; [| discriminate].
  rewrite !Nat.ltb_lt. lia.
Qed.

Lemma valid_order_edge (s : Stack) (order : list string) (dependent dependency : string) :
  valid_creation_order s order = true ->
  In (dependent, dependency) (dependency_edges s) ->
  has_child s dependency = true ->
  created_before order dependency dependent = true.
Proof.
  unfold valid_creation_order. intros Hvalid Hedge Hchild.
  apply andb_prop in Hvalid as [_ Hedges].
  rewrite forallb_forall in Hedges. specialize (Hedges _ Hedge).
  cbn [fst snd] in Hedges. rewrite Hchild in Hedges. exact Hedges.
Qed.

(** X14: in every creation order that respects the dependencies of a
    synthesized stack, the index role is created before the index, the index
    and the data-source role before the data source, the data source and the
    sync role before the sync function, and the sync function before its
    trigger: when the trigger fires, the index, the data source and the
    function it starts already exist. *)
Theorem X14_trigger_comes_last (construct_id : string) (s : Stack)
    (order : list string) :
  BedrockKendraGoogleDriveStack construct_id = Some s ->
  valid_creation_order s order = true ->
  created_before order "KendraIndexRole" "KendraIndex" = true
  /\ created_before order "KendraIndex" "KendraDS" = true
  /\ created_before order "KendraDSRole" "KendraDS" = true
  /\ created_before order "KendraDS" "DataSourceSyncLambda" = true
  /\ created_before order "DataSourceSyncLambdaRole" "DataSourceSyncLambda" = true
  /\ created_before order "DataSourceSyncLambda" "data_source_sync_lambda_trigger"
     = true
  /\ created_before order "KendraIndex" "data_source_sync_lambda_trigger" = true
  /\ created_before order "KendraDS" "data_source_sync_lambda_trigger" = true.
Proof.
  intros Hs Hvalid. apply synth_inv in Hs as ->.
  assert (forall dependent dependency,
            bool_decide ((dependent, dependency)
                         ∈ dependency_edges (synthesized construct_id)) = true ->
            has_child (synthesized construct_id) dependency = true ->
            created_before order dependency dependent = true) as Hedge.
  { intros dependent dependency Hin Hchild.
    apply (valid_order_edge _ _ _ _ Hvalid); [| exact Hchild].
    apply list_elem_of_In. by apply bool_decide_eq_true_1 in Hin. }
  assert (created_before order "KendraIndexRole" "KendraIndex" = true) as H1
    by (apply Hedge; vm_compute; reflexivity).
  assert (created_before order "KendraIndex" "KendraDS" = true) as H2
    by (apply Hedge; vm_compute; reflexivity).
  assert (created_before order "KendraDSRole" "KendraDS" = true) as H3
    by (apply Hedge; vm_compute; reflexivity).
  assert (created_before order "KendraDS" "DataSourceSyncLambda" = true) as H4
    by (apply Hedge; vm_compute; reflexivity).
  assert (created_before order "DataSourceSyncLambdaRole" "DataSourceSyncLambda"
          = true) as H5 by (apply Hedge; vm_compute; reflexivity).
  assert (created_before order "DataSourceSyncLambda"
            "data_source_sync_lambda_trigger" = true) as H6
    by (apply Hedge; vm_compute; reflexivity).
  pose proof (created_before_trans _ _ _ _ H4 H6) as H7.
  pose proof (created_before_trans _ _ _ _ H2 H7) as H8.
  repeat split; assumption.
Qed.

Lemma X14_trigger_comes_last_witness :
  let s := synthesized "BedrockKendraGoogleDriveStack" in
  let order := construct_id_of <$> children s in
  app = Some s
  /\ valid_creation_order s order = true
  /\ created_before order "KendraDS" "data_source_sync_lambda_trigger" = true.
Proof.
  cbv zeta. split; [apply synth_eq |]. split; [vm_compute; reflexivity |].
  apply (X14_trigger_comes_last "BedrockKendraGoogleDriveStack"
           (synthesized "BedrockKendraGoogleDriveStack")).
  - apply synth_eq.
  - vm_compute. reflexivity.
Defined.
